(** * BitBake parsers: stat cache, dependency recorder, handler dispatch,
      filename decomposition, variable-dependency annotations, and the S3
      fetcher's error mapping.

    A shallow embedding of [lib/bb/parse/__init__.py] and of the boto3 code
    paths of [lib/bb/fetch2/s3.py].  Python's module-level dictionaries are
    finite maps that every function receives and hands back; exceptions are
    a constructor of the result type, and a raise keeps whatever the function
    had already written to the shared state. *)

From Stdlib Require Import ZArith Ascii Lia.
From Stdlib Require String DecimalString.
From stdpp Require Import gmap strings list fin_maps.

Local Open Scope Z_scope.

(** ** Exceptions and results *)

(** The values that [e.response['Error']['Code']] and similar untyped Python
    slots can hold in this code: a [str] or an [int]. *)
Inductive pyval :=
| PStr (s : string)
| PInt (n : Z).

Inductive exn :=
| OSError (filename : string)
    (* what [os.stat] raises *)
| ParseError (msg filename : string) (lineno : Z)
| IOError (errno : Z) (strerror : string)
| FetchError (msg : string)
| OtherException (what : string).

Inductive result (A : Type) :=
| Ok (a : A)
| Raise (e : exn).
Arguments Ok {A} a.
Arguments Raise {A} e.

(** A computation over a mutable store [S]: it always hands the store back,
    also when it raises. *)
Definition Py (S A : Type) : Type := S -> result A * S.

Definition ret {S A} (a : A) : Py S A := fun s => (Ok a, s).
Definition raise {S A} (e : exn) : Py S A := fun s => (Raise e, s).
Definition bind {S A B} (c : Py S A) (k : A -> Py S B) : Py S B :=
  fun s => match c s with
           | (Ok a, s') => k a s'
           | (Raise e, s') => (Raise e, s')
           end.

Notation "'let*' x := c 'in' k" := (bind c (fun x => k))
  (at level 10, x name, c at level 100, k at level 200, only parsing).
Notation "'do*' c 'in' k" := (bind c (fun _ => k))
  (at level 10, c at level 100, k at level 200, only parsing).

(** ** The filesystem as the module sees it *)

(** The fields of an [os.stat_result] the module reads, and whether the mode
    says regular file ([os.path.isfile]). *)
Record stat_result := mkStat {
  st_mtime_ns : Z;
  st_size : Z;
  st_ino : Z;
  st_isreg : bool
}.

(** [os_stat f = None] stands for [os.stat(f)] raising [OSError].  A path
    on which [os.stat] raises something else (an embedded NUL) and a
    working directory that [os.getcwd] cannot read are outside the model. *)
Record FS := mkFS {
  os_stat : string -> option stat_result;
  os_getcwd : string
}.

Definition os_path_exists (fs : FS) (p : string) : bool :=
  match os_stat fs p with Some _ => true | None => false end.

Definition os_path_isfile (fs : FS) (p : string) : bool :=
  match os_stat fs p with Some r => st_isreg r | None => false end.

(** ** Stat cache *)

(** A fingerprint is the tuple [(st_mtime_ns, st_size, st_ino)], or the
    integer [0] standing for a file that could not be stat'd. *)
Inductive Fingerprint :=
| Absent
| Stamp (mtime_ns size ino : Z).

Global Instance Fingerprint_eq_dec : EqDecision Fingerprint.
Proof. solve_decision. Defined.

Definition fingerprint_of (res : stat_result) : Fingerprint :=
  Stamp (st_mtime_ns res) (st_size res) (st_ino res).

(** [__mtime_cache], a Python dict and so able to hold any fingerprint value,
    together with a ghost log of the paths [os.stat] was called on from this
    module. *)
Record StatCache := mkStatCache {
  __mtime_cache : gmap string Fingerprint;
  stat_calls : list string
}.

Definition empty_cache : StatCache := mkStatCache ∅ [].

(** [os.stat(f)] as a computation: logs the call. *)
Definition stat (fs : FS) (f : string) : Py StatCache stat_result :=
  fun st =>
    let st' := mkStatCache (__mtime_cache st) (stat_calls st ++ [f]) in
    match os_stat fs f with
    | Some res => (Ok res, st')
    | None => (Raise (OSError f), st')
    end.

Definition cache_store (f : string) (v : Fingerprint) : Py StatCache unit :=
  fun st => (Ok tt, mkStatCache (<[f := v]> (__mtime_cache st)) (stat_calls st)).

Definition cache_del (f : string) : Py StatCache unit :=
  fun st => (Ok tt, mkStatCache (delete f (__mtime_cache st)) (stat_calls st)).

(** [__mtime_cache[f]]; a missing key would be a [KeyError]. *)
Definition cache_get (f : string) : Py StatCache Fingerprint :=
  fun st => match __mtime_cache st !! f with
            | Some v => (Ok v, st)
            | None => (Raise (OtherException "KeyError"), st)
            end.

Definition cache_has (f : string) : Py StatCache bool :=
  fun st => (Ok (bool_decide (is_Some (__mtime_cache st !! f))), st).

(** [try: c  except OSError: h]. *)
Definition try_OSError {S A} (c : Py S A) (h : Py S A) : Py S A :=
  fun s => match c s with
           | (Raise (OSError _), s') => h s'
           | r => r
           end.

Definition cached_mtime (fs : FS) (f : string) : Py StatCache Fingerprint :=
  let* present := cache_has f in
  do* (if negb present then
         let* res := stat fs f in
         cache_store f (fingerprint_of res)
       else ret tt) in
  cache_get f.

(** The [except] branch returns from the function; [early] carries that
    return value past the statements after the [try]. *)
Definition cached_mtime_noerror (fs : FS) (f : string)
  : Py StatCache Fingerprint :=
  let* present := cache_has f in
  let* early :=
    (if negb present then
       try_OSError
         (let* res := stat fs f in
          do* cache_store f (fingerprint_of res) in
          ret None)
         (ret (Some Absent))
     else ret None) in
  match early with
  | Some v => ret v
  | None => cache_get f
  end.

Definition check_mtime (fs : FS) (f : string) (mtime : Fingerprint)
  : Py StatCache bool :=
  let* current_mtime :=
    try_OSError
      (let* res := stat fs f in
       let current_mtime := fingerprint_of res in
       do* cache_store f current_mtime in
       ret current_mtime)
      (ret Absent) in
  ret (bool_decide (current_mtime = mtime)).

Definition update_mtime (fs : FS) (f : string) : Py StatCache Fingerprint :=
  let* early :=
    try_OSError
      (let* res := stat fs f in
       do* cache_store f (fingerprint_of res) in
       ret None)
      (let* present := cache_has f in
       do* (if present then cache_del f else ret tt) in
       ret (Some Absent)) in
  match early with
  | Some v => ret v
  | None => cache_get f
  end.

Definition update_cache (fs : FS) (f : string) : Py StatCache unit :=
  let* present := cache_has f in
  if present then do* update_mtime fs f in ret tt else ret tt.

Definition clear_cache : Py StatCache unit :=
  fun st => (Ok tt, mkStatCache ∅ (stat_calls st)).

(** The operations a caller can run against the stat cache, each paired with
    the filesystem as it is when the call is made. *)
Inductive cache_op :=
| OpLookup (f : string)
| OpLookupNoerror (f : string)
| OpCheck (f : string) (expected : Fingerprint)
| OpRefresh (f : string)
| OpUpdateCache (f : string)
| OpClear.

Definition run_op (fs : FS) (op : cache_op) (st : StatCache) : StatCache :=
  match op with
  | OpLookup f => snd (cached_mtime fs f st)
  | OpLookupNoerror f => snd (cached_mtime_noerror fs f st)
  | OpCheck f expected => snd (check_mtime fs f expected st)
  | OpRefresh f => snd (update_mtime fs f st)
  | OpUpdateCache f => snd (update_cache fs f st)
  | OpClear => snd (clear_cache st)
  end.

Fixpoint run_ops (ops : list (FS * cache_op)) (st : StatCache) : StatCache :=
  match ops with
  | [] => st
  | (fs, op) :: rest => run_ops rest (run_op fs op st)
  end.

(** Whether an operation refreshes or checks the entry of [f]: [update_mtime]
    and [check_mtime] on [f], [update_cache] on [f] (which calls
    [update_mtime]), and [clear_cache], which drops every entry. *)
Definition refreshes (f : string) (op : cache_op) : bool :=
  match op with
  | OpLookup _ | OpLookupNoerror _ => false
  | OpCheck g _ | OpRefresh g | OpUpdateCache g => bool_decide (g = f)
  | OpClear => true
  end.

(** ** Python string helpers *)

Module Str.

Fixpoint drop (n : nat) (s : string) : string :=
  match n, s with
  | O, _ => s
  | S n', String _ s' => drop n' s'
  | S _, EmptyString => EmptyString
  end.

Fixpoint take (n : nat) (s : string) : string :=
  match n, s with
  | O, _ => EmptyString
  | S n', String a s' => String a (take n' s')
  | S _, EmptyString => EmptyString
  end.

(** [s.startswith(p)] *)
Definition startswith (p s : string) : bool := String.prefix p s.

(** [s.endswith(p)] *)
Definition endswith (p s : string) : bool :=
  (String.length p <=? String.length s)%nat
  && String.eqb (drop (String.length s - String.length p) s) p.

(** [s.rfind(c)] for a one-character [c]: the highest index of [c], or -1.
    [i] is the index of the head of [s]. *)
Fixpoint rfind_from (c : ascii) (s : string) (i : Z) : Z :=
  match s with
  | EmptyString => -1
  | String a s' =>
      let r := rfind_from c s' (i + 1) in
      if 0 <=? r then r else if Ascii.eqb a c then i else -1
  end.

Definition rfind (c : ascii) (s : string) : Z := rfind_from c s 0.

(** [s.split(c)] for a one-character separator: never the empty list. *)
Fixpoint split (c : ascii) (s : string) : list string :=
  match s with
  | EmptyString => [EmptyString]
  | String a s' =>
      if Ascii.eqb a c then EmptyString :: split c s'
      else match split c s' with
           | w :: ws => String a w :: ws
           | [] => [String a EmptyString]
           end
  end.

(** [s.lstrip(c)] for a one-character set. *)
Fixpoint lstrip (c : ascii) (s : string) : string :=
  match s with
  | String a s' => if Ascii.eqb a c then lstrip c s' else s
  | EmptyString => EmptyString
  end.

(** [str(n)] for an [int]. *)
Definition of_Z (n : Z) : string := DecimalString.NilZero.string_of_int (Z.to_int n).

(** [sep.join(l)] *)
Fixpoint join (sep : string) (l : list string) : string :=
  match l with
  | [] => EmptyString
  | [x] => x
  | x :: rest => x +:+ sep +:+ join sep rest
  end.

End Str.

(** ** [os.path] on POSIX *)

Module OsPath.

Definition sep : ascii := "/"%char.
Definition extsep : ascii := "."%char.

Definition isabs (p : string) : bool := Str.startswith "/" p.

(** [posixpath.basename]: [i = p.rfind('/') + 1; return p[i:]] *)
Definition basename (p : string) : string :=
  let i := Str.rfind sep p + 1 in
  Str.drop (Z.to_nat i) p.

(** The [while filenameIndex < dotIndex] loop of [genericpath._splitext],
    run for the [n = dotIndex - filenameIndex] characters of [rest] that
    lie before the last dot: [true] as soon as one is not a dot. *)
Fixpoint splitext_scan (n : nat) (rest : string) : bool :=
  match n, rest with
  | S n', String a rest' =>
      if negb (Ascii.eqb a extsep) then true else splitext_scan n' rest'
  | _, _ => false
  end.

(** [posixpath.splitext]: split at the last dot of the last component,
    leading dots of that component not counting. *)
Definition splitext (p : string) : string * string :=
  let sepIndex := Str.rfind sep p in
  let dotIndex := Str.rfind extsep p in
  if (sepIndex <? dotIndex)
     && splitext_scan (Z.to_nat (dotIndex - (sepIndex + 1)))
                      (Str.drop (Z.to_nat (sepIndex + 1)) p)
  then (Str.take (Z.to_nat dotIndex) p, Str.drop (Z.to_nat dotIndex) p)
  else (p, EmptyString).

(** [posixpath.join(a, b)] *)
Definition join (a b : string) : string :=
  if Str.startswith "/" b then b
  else if String.eqb a "" || Str.endswith "/" a then a +:+ b
  else a +:+ "/" +:+ b.





End OsPath.

(** ** The build context *)

Definition dep : Type := string * Fingerprint.

(** The variables of the datastore [d] this module reads and writes, and the
    chain of files currently being included. [None] is an unset variable. *)
Record DataSmart := mkData {
  var_BBPATH : option string;
  var_depends : option (list dep);        (* '__depends' *)
  var_base_depends : option (list dep);   (* '__base_depends' *)
  inchistory : list string
}.

(** The store the recorder works on: the process-wide stat cache and the
    datastore object passed as [d]. *)
Record Parse := mkParse {
  cache : StatCache;
  data : DataSmart
}.

Definition with_cache {A} (c : Py StatCache A) : Py Parse A :=
  fun w => let (r, st) := c (cache w) in (r, mkParse st (data w)).

Definition getVar {A} (field : DataSmart -> option A) : Py Parse (option A) :=
  fun w => (Ok (field (data w)), w).

Definition setVar_depends (deps : list dep) : Py Parse unit :=
  fun w =>
    let d := data w in
    (Ok tt, mkParse (cache w)
              (mkData (var_BBPATH d) (Some deps) (var_base_depends d) (inchistory d))).

(** [x or []] *)
Definition or_empty {A} (x : option (list A)) : list A :=
  match x with
  | Some (y :: l) => y :: l
  | Some [] | None => []
  end.

(** ** Dependency recorder *)

(** [deps.append(s)] grows the list the datastore holds and [setVar] stores
    it back: the variable ends up as the old list followed by [s]. *)
Definition mark_dependency (fs : FS) (f : string) : Py Parse unit :=
  let f := if Str.startswith "./" f
           then os_getcwd fs +:+ "/" +:+ Str.drop 2 f
           else f in
  let* v := getVar var_depends in
  let deps := or_empty v in
  let* m := with_cache (cached_mtime_noerror fs f) in
  let s := (f, m) in
  if negb (bool_decide (s ∈ deps)) then
    setVar_depends (deps ++ [s])
  else ret tt.

Definition check_dependency (fs : FS) (f : string) : Py Parse bool :=
  let* m := with_cache (cached_mtime_noerror fs f) in
  let s := (f, m) in
  let* v := getVar var_depends in
  let deps := or_empty v in
  ret (bool_decide (s ∈ deps)).

(** [for x in l: body(x)] *)
Fixpoint for_each {S A} (l : list A) (body : A -> Py S unit) : Py S unit :=
  match l with
  | [] => ret tt
  | x :: rest => do* body x in for_each rest body
  end.

(** Modelled from the spec: [bb.utils.which(path, item, history=True)], whose
    module (lib/bb/utils.py) is not among the sources.  The search list is a
    colon-delimited string; every directory is probed in order by joining it
    with the file name, each probed candidate is put on the history, and the
    first candidate that exists is returned with the history so far; when
    no directory yields a match the result is the empty string and the
    whole history. *)
Fixpoint which_loop (fs : FS) (paths : list string) (item : string)
    (hist : list string) : string * list string :=
  match paths with
  | [] => (EmptyString, hist)
  | p :: rest =>
      let next := OsPath.join p item in
      let hist := hist ++ [next] in
      if os_path_exists fs next then (next, hist)
      else which_loop fs rest item hist
  end.

Definition which (fs : FS) (path : option string) (item : string)
  : string * list string :=
  which_loop fs (Str.split ":" (default EmptyString path)) item [].

Definition ENOENT : Z := 2.

(** ["%s" % v] for a variable that may be unset. *)
Definition fmt_opt (v : option string) : string :=
  match v with Some s => s | None => "None" end.

Definition resolve_file (fs : FS) (fn : string) : Py Parse string :=
  let* fn :=
    (if negb (OsPath.isabs fn) then
       let* bbpath := getVar var_BBPATH in
       let '(newfn, attempts) := which fs bbpath fn in
       do* for_each attempts (mark_dependency fs) in
       if String.eqb newfn "" then
         raise (IOError ENOENT
                  ("file " +:+ fn +:+ " not found in " +:+ fmt_opt bbpath))
       else ret newfn
     else
       do* mark_dependency fs fn in
       ret fn) in
  if negb (os_path_isfile fs fn) then
    raise (IOError ENOENT ("file " +:+ fn +:+ " not found"))
  else ret fn.

(** ** Handler registry and dispatcher *)

(** Ghost record of the calls the dispatcher makes, by registry index. *)
Inductive call :=
| CallSupports (i : nat)
| EnterInclude (fn : string)
| CallHandle (i : nat)
| ExitInclude.

Global Instance call_eq_dec : EqDecision call.
Proof. solve_decision. Defined.

Section Dispatch.

(** What a handler's entry point returns. *)
Variable R : Type.

(** An entry of [handlers]: the dict [{'supports', 'handle', 'init'}].
    The entry point may change the datastore and may raise. *)
Record Handler := mkHandler {
  h_supports : string -> DataSmart -> bool;
  h_handle : string -> DataSmart -> Z -> bool -> result R * DataSmart;
  h_init : DataSmart -> DataSmart
}.

Record Run := mkRun {
  run_data : DataSmart;
  run_calls : list call
}.

Definition log (c : call) : Py Run unit :=
  fun w => (Ok tt, mkRun (run_data w) (run_calls w ++ [c])).

Definition call_supports (i : nat) (h : Handler) (fn : string) : Py Run bool :=
  do* log (CallSupports i) in
  fun w => (Ok (h_supports h fn (run_data w)), w).

Definition call_handle (i : nat) (h : Handler) (fn : string)
    (include : Z) (baseconfig : bool) : Py Run R :=
  do* log (CallHandle i) in
  fun w => let (r, d) := h_handle h fn (run_data w) include baseconfig in
           (r, mkRun d (run_calls w)).

Definition set_inchistory (d : DataSmart) (chain : list string) : DataSmart :=
  mkData (var_BBPATH d) (var_depends d) (var_base_depends d) chain.

(** Modelled from the spec: [data.inchistory.include(fn)] used as a
    context manager; the datastore class (lib/bb/data_smart.py) is not
    among the sources.  Entering the scope puts [fn] at the head of the
    chain of files being included, leaving it takes the head off again,
    whether the body returned or raised; the body's exception is passed
    on. *)
Definition with_include {A} (fn : string) (body : Py Run A) : Py Run A :=
  fun w =>
    let d := run_data w in
    let w1 := mkRun (set_inchistory d (fn :: inchistory d))
                    (run_calls w ++ [EnterInclude fn]) in
    let (r, w2) := body w1 in
    let d2 := run_data w2 in
    (r, mkRun (set_inchistory d2 (tail (inchistory d2)))
              (run_calls w2 ++ [ExitInclude])).

(** [for h in handlers: if h['supports'](fn, data): return 1] *)
Fixpoint supports_from (i : nat) (hs : list Handler) (fn : string) : Py Run Z :=
  match hs with
  | [] => ret 0
  | h :: rest =>
      let* ok := call_supports i h fn in
      if ok then ret 1 else supports_from (S i) rest fn
  end.

Definition supports (handlers : list Handler) (fn : string) : Py Run Z :=
  supports_from 0 handlers fn.

(** The [for h in handlers] loop of [handle], [i] being the registry index
    of the head of [hs]. *)
Fixpoint handle_from (i : nat) (hs : list Handler) (fn : string)
    (include : Z) (baseconfig : bool) : Py Run R :=
  match hs with
  | [] => raise (ParseError "not a BitBake file" fn 0)
  | h :: rest =>
      let* ok := call_supports i h fn in
      if ok then
        with_include fn (call_handle i h fn include baseconfig)
      else handle_from (S i) rest fn include baseconfig
  end.

Definition handle (handlers : list Handler) (fn : string)
    (include : Z) (baseconfig : bool) : Py Run R :=
  handle_from 0 handlers fn include baseconfig.

End Dispatch.

Arguments mkHandler {R}.
Arguments h_supports {R}.
Arguments h_handle {R}.
Arguments handle {R}.
Arguments supports {R}.

(** ** Filename decomposition *)

(** [__pkgsplit_cache__]: file name to the list object stored for it. *)
Abbreviation PkgsplitCache := (gmap string (list (option string))).

Definition recipe_extension (mypkg : string) : bool :=
  Str.endswith ".bb" mypkg || Str.endswith ".bbappend" mypkg.

(** The segments of the base name: [os.path.splitext(os.path.basename(mypkg))[0].split('_')] *)
Definition segments (mypkg : string) : list string :=
  Str.split "_" (fst (OsPath.splitext (OsPath.basename mypkg))).

(** [while exp != 0: exp -= 1; tmplist.append(None)] *)
Fixpoint pad_loop (exp : nat) (tmplist : list (option string))
  : list (option string) :=
  match exp with
  | O => tmplist
  | S exp' => pad_loop exp' (tmplist ++ [None])
  end.

(** The list [parts] is put into the cache before its length is looked at,
    and [parts.extend] then grows that same list object: on a return the
    cache holds the padded list, on a raise the unpadded one.  The tuple
    of the first return is given as a list. *)
Definition vars_from_file (mypkg : string)
  : Py PkgsplitCache (list (option string)) :=
  fun __pkgsplit_cache__ =>
    if String.eqb mypkg "" || negb (recipe_extension mypkg) then
      (Ok [None; None; None], __pkgsplit_cache__)
    else
      match __pkgsplit_cache__ !! mypkg with
      | Some v => (Ok v, __pkgsplit_cache__)
      | None =>
          let parts := Some <$> segments mypkg in
          let __pkgsplit_cache__ := <[mypkg := parts]> __pkgsplit_cache__ in
          if (3 <? length parts)%nat then
            (Raise (ParseError
                      "Unable to generate default variables from filename (too many underscores)"
                      mypkg 0),
             __pkgsplit_cache__)
          else
            let exp := (3 - length parts)%nat in
            let tmplist := pad_loop exp [] in
            let parts := parts ++ tmplist in
            (Ok parts, <[mypkg := parts]> __pkgsplit_cache__)
      end.

(** ** Variable-dependency annotations *)

(** A function object with the two attributes the decorators set;
    [None] is an attribute the object does not have. *)
Record PyFunction := mkFunction {
  fn_name : string;
  bb_vardeps : option (gset string);
  bb_vardepsexclude : option (gset string)
}.

(** The decorator [vardeps] called with the names [varnames], applied to [f]. *)
Definition vardeps (varnames : list string) (f : PyFunction) : PyFunction :=
  let f := match bb_vardeps f with
           | None => mkFunction (fn_name f) (Some ∅) (bb_vardepsexclude f)
           | Some _ => f
           end in
  mkFunction (fn_name f)
             ((fun s => s ∪ list_to_set varnames) <$> bb_vardeps f)
             (bb_vardepsexclude f).

(** The decorator [vardepsexclude] called with [varnames], applied to [f]. *)
Definition vardepsexclude (varnames : list string) (f : PyFunction) : PyFunction :=
  let f := match bb_vardepsexclude f with
           | None => mkFunction (fn_name f) (bb_vardeps f) (Some ∅)
           | Some _ => f
           end in
  mkFunction (fn_name f)
             (bb_vardeps f)
             ((fun s => s ∪ list_to_set varnames) <$> bb_vardepsexclude f).

(** ** The S3 fetcher's boto3 paths *)

Module S3.

(** The fields of the url data [ud] the two methods read. *)
Record UrlData := mkUrlData {
  url : string;
  host : string;
  path : string;
  localpath : string
}.

(** How a call on the boto3 client ends: it returns, it raises
    [botocore.exceptions.ClientError] with [e.response['Error']['Code']],
    or it raises something else. *)
Inductive boto (A : Type) :=
| Returns (a : A)
| ClientError (code : pyval)
| Fails (what : string).
Arguments Returns {A} a.
Arguments ClientError {A} code.
Arguments Fails {A} what.

(** [self._s3]; [head_object] gives the content-length header as [int]
    reads it, [None] when the header is missing or is not a number. *)
Record Client := mkClient {
  head_object : string -> string -> boto (option Z);
  download_file : string -> string -> string -> boto unit
}.

(** [v == "404"] and [v == 403] on Python values: a [str] never equals an
    [int]. *)
Definition eq_str (v : pyval) (s : string) : bool :=
  match v with PStr t => String.eqb t s | PInt _ => false end.

Definition eq_int (v : pyval) (n : Z) : bool :=
  match v with PInt m => m =? n | PStr _ => false end.

(** [f"{v}"] *)
Definition fmt (v : pyval) : string :=
  match v with PStr s => s | PInt n => Str.of_Z n end.

Definition _boto_checkstatus (s3 : Client) (ud : UrlData) : result bool :=
  let key := Str.lstrip "/" (path ud) in
  match head_object s3 (host ud) key with
  | Returns _ => Ok true
  | ClientError code =>
      if eq_str code "404" then
        Raise (FetchError ("boto3 failed to find " +:+ url ud))
      else if eq_int code 403 then
        Raise (FetchError ("boto3 does not have access to " +:+ url ud))
      else
        Raise (FetchError ("boto3 failed to access " +:+ url ud
                           +:+ ". Error code: " +:+ fmt code))
  | Fails what => Raise (OtherException what)
  end.

(** The size only feeds the progress callback, which is left out. *)
Definition _boto_download (s3 : Client) (ud : UrlData) : result bool :=
  let key := Str.lstrip "/" (path ud) in
  let size := match head_object s3 (host ud) key with
              | Returns (Some n) => Some n
              | _ => None
              end in
  match download_file s3 (host ud) key (localpath ud) with
  | Returns _ => Ok true
  | ClientError code =>
      if eq_str code "404" then
        Raise (FetchError ("boto3 failed to find " +:+ url ud))
      else if eq_int code 403 then
        Raise (FetchError ("boto3 does not have access to " +:+ url ud))
      else
        Raise (FetchError ("boto3 failed to download " +:+ url ud
                           +:+ ". Error code: " +:+ fmt code))
  | Fails what => Raise (OtherException what)
  end.

(** The two specific failures, told apart by the exception's message. *)
Definition not_found_error (ud : UrlData) : exn :=
  FetchError ("boto3 failed to find " +:+ url ud).

Definition access_denied_error (ud : UrlData) : exn :=
  FetchError ("boto3 does not have access to " +:+ url ud).

End S3.

(** ** Further operations of the parser module *)

(** The path an operation on the stat cache is about; [clear_cache] is about
    none in particular. *)
Definition op_path (op : cache_op) : option string :=
  match op with
  | OpLookup f | OpLookupNoerror f | OpCheck f _ | OpRefresh f
  | OpUpdateCache f => Some f
  | OpClear => None
  end.

(** A run of [mark_dependency] calls on one context, each with the
    filesystem as it is at that call. *)
Fixpoint mark_all (calls : list (FS * string)) : Py Parse unit :=
  match calls with
  | [] => ret tt
  | (fs, f) :: rest => do* mark_dependency fs f in mark_all rest
  end.



(** ** The S3 fetcher's [download] and [checkstatus] *)

Module S3Fetch.

(** What the methods call outside the class: [bb.fetch2.check_network_access]
    (it returns, or raises what [None] is not), and [runfetchcmd], which
    runs a shell command that may change the local files and gives the
    command's output or raises. Local files are a map from path to size. *)
Record Services := mkServices {
  check_network_access : string -> string -> option exn;
  runfetchcmd : string -> gmap string Z -> result string * gmap string Z
}.

(** The local files and a ghost log of the commands handed to
    [runfetchcmd]. *)
Record Local := mkLocal {
  files : gmap string Z;
  commands : list string
}.

Definition network_check (sv : Services) (cmd url : string) : Py Local unit :=
  fun w => match check_network_access sv cmd url with
           | None => (Ok tt, w)
           | Some e => (Raise e, w)
           end.

Definition run (sv : Services) (cmd : string) : Py Local string :=
  fun w => let (r, fl) := runfetchcmd sv cmd (files w) in
           (r, mkLocal fl (commands w ++ [cmd])).

(** [os.path.exists], [os.path.getsize] and [os.remove] on the local files. *)
Definition path_exists (p : string) : Py Local bool :=
  fun w => (Ok (bool_decide (is_Some (files w !! p))), w).

Definition getsize (p : string) : Py Local Z :=
  fun w => match files w !! p with
           | Some n => (Ok n, w)
           | None => (Raise (OSError p), w)
           end.

Definition remove (p : string) : Py Local unit :=
  fun w => match files w !! p with
           | Some _ => (Ok tt, mkLocal (delete p (files w)) (commands w))
           | None => (Raise (OSError p), w)
           end.

(** [self._s3] is [None] when boto3 could not be set up; [basecmd] is
    [ud.basecmd].  What the boto3 client writes to the local files is not
    tracked: the boto3 path never looks at them. *)
Definition download (sv : Services) (_s3 : option S3.Client)
    (basecmd : string) (ud : S3.UrlData) : Py Local bool :=
  let cmd := basecmd +:+ " cp s3://" +:+ S3.host ud +:+ S3.path ud
             +:+ " " +:+ S3.localpath ud in
  do* network_check sv cmd (S3.url ud) in
  match _s3 with
  | Some s3 => fun w => (S3._boto_download s3 ud, w)
  | None =>
      do* run sv cmd in
      let* present := path_exists (S3.localpath ud) in
      if negb present then
        raise (FetchError
                 ("The aws cp command returned success for s3://"
                  +:+ S3.host ud +:+ S3.path ud +:+ " but "
                  +:+ S3.localpath ud +:+ " doesn't exist?!"))
      else
        let* size := getsize (S3.localpath ud) in
        if size =? 0 then
          do* remove (S3.localpath ud) in
          raise (FetchError
                   ("The aws cp command for s3://" +:+ S3.host ud
                    +:+ S3.path ud
                    +:+ " resulted in a zero size file?! Deleting and failing since this isn't right."))
        else ret true
  end.

Definition checkstatus (sv : Services) (_s3 : option S3.Client)
    (basecmd : string) (ud : S3.UrlData) : Py Local bool :=
  let cmd := basecmd +:+ " ls s3://" +:+ S3.host ud +:+ S3.path ud in
  do* network_check sv cmd (S3.url ud) in
  match _s3 with
  | Some s3 => fun w => (S3._boto_checkstatus s3 ud, w)
  | None =>
      let* output := run sv cmd in
      if String.eqb output "" then
        raise (FetchError
                 ("The aws ls command for s3://" +:+ S3.host ud
                  +:+ S3.path ud +:+ " gave empty output"))
      else ret true
  end.

End S3Fetch.

(** Whether the character [c] occurs in [s]. *)
Fixpoint occurs (c : ascii) (s : string) : bool :=
  match s with
  | EmptyString => false
  | String a s' => Ascii.eqb a c || occurs c s'
  end.

(** Services that let the network through and whose command prints [out]
    and leaves the download of [sample_url] with the size [written], or
    leaves no file when [written] is [None]. *)
Definition cli_services (out : string) (written : option Z)
  : S3Fetch.Services :=
  S3Fetch.mkServices
    (fun _ _ => None)
    (fun _ fl => (Ok out,
                  match written with
                  | Some n => <["/downloads/file.tar.gz" := n]> fl
                  | None => fl
                  end)).

(** ** Vocabulary of the statements *)

(** What a stat of [f] gives right now: the fingerprint of the file, or the
    sentinel when the stat fails. *)
Definition current_fingerprint (fs : FS) (f : string) : Fingerprint :=
  match os_stat fs f with
  | Some res => fingerprint_of res
  | None => Absent
  end.

(** No entry of the cache holds the sentinel. *)
Definition no_sentinel (st : StatCache) : Prop :=
  forall f, __mtime_cache st !! f ≠ Some Absent.

Ltac unfold_py :=
  unfold bind, ret, raise, try_OSError, stat, cache_store, cache_del,
    cache_get, cache_has, with_cache, getVar, setVar_depends in *.

(** The path [mark_dependency] records for [f]: a leading ["./"] is replaced
    by the working directory. *)
Definition recorded_path (fs : FS) (f : string) : string :=
  if Str.startswith "./" f then os_getcwd fs +:+ "/" +:+ Str.drop 2 f else f.

(** The fingerprint the absent-tolerant lookup gives for [p]: the stored
    entry when there is one, the current fingerprint otherwise. *)
Definition recorded_fingerprint (fs : FS) (st : StatCache) (p : string)
  : Fingerprint :=
  match __mtime_cache st !! p with
  | Some v => v
  | None => current_fingerprint fs p
  end.

(** The dependency set of a context, as [mark_dependency] reads it. *)
Definition depends_of (d : DataSmart) : list dep := or_empty (var_depends d).

(** How many copies of [s] a dependency set holds. *)
Definition copies (s : dep) (deps : list dep) : nat :=
  length (filter (fun x => x = s) deps).

(** Sample filesystems: an empty one, and one holding a single path. *)
Definition fs_empty : FS := mkFS (fun _ => None) "/work".

Definition fs_single (p : string) (res : stat_result) : FS :=
  mkFS (fun q => if String.eqb q p then Some res else None) "/work".

Definition sample_stat : stat_result := mkStat 1700000000 42 7 true.

(** A context whose search path is [/a:/b]. *)
Definition sample_context : Parse :=
  mkParse empty_cache (mkData (Some "/a:/b") None None []).

(** Two handlers that both accept every path, told apart by what their
    entry points return. *)
Definition handler_A : Handler string :=
  mkHandler (fun _ _ => true) (fun _ d _ _ => (Ok "A", d)) (fun d => d).

Definition handler_B : Handler string :=
  mkHandler (fun _ _ => true) (fun _ d _ _ => (Ok "B", d)) (fun d => d).

(** A client whose every call is refused the way botocore reports an HTTP
    403: a [ClientError] with the code as a string. *)
Definition s3_forbidden : S3.Client :=
  S3.mkClient (fun _ _ => S3.ClientError (PStr "403"))
              (fun _ _ _ => S3.ClientError (PStr "403")).

Definition sample_url : S3.UrlData :=
  S3.mkUrlData "s3://bucket/dir/file.tar.gz" "bucket" "/dir/file.tar.gz"
               "/downloads/file.tar.gz".

(** * Properties *)

(** ** The helpers on concrete inputs *)

Example split_underscores :
  Str.split "_" "foo_1_2_3" = ["foo"; "1"; "2"; "3"].
Proof. reflexivity. Qed.

Example split_no_separator : Str.split "_" "" = [""].
Proof. reflexivity. Qed.

Example basename_of_path : OsPath.basename "/meta/recipes_x/foo_1.0.bb" = "foo_1.0.bb".
Proof. reflexivity. Qed.

Example splitext_last_dot :
  OsPath.splitext "foo_1.2.3-r0.bb" = ("foo_1.2.3-r0", ".bb").
Proof. reflexivity. Qed.

Example splitext_leading_dot : OsPath.splitext ".bb" = (".bb", "").
Proof. reflexivity. Qed.

Example join_relative_name : OsPath.join "/a" "foo.bb" = "/a/foo.bb".
Proof. reflexivity. Qed.

Example join_absolute_name : OsPath.join "/a" "/etc/foo.bb" = "/etc/foo.bb".
Proof. reflexivity. Qed.

Example which_first_hit :
  which (fs_single "/b/foo.bb" sample_stat) (Some "/a:/b:/c") "foo.bb"
  = ("/b/foo.bb", ["/a/foo.bb"; "/b/foo.bb"]).
Proof. reflexivity. Qed.

(** The padded list is what the cache ends up holding. *)
Example vars_from_file_pads :
  fst (vars_from_file "foo_1.0.bb" ∅) = Ok [Some "foo"; Some "1.0"; None] /\
  snd (vars_from_file "foo_1.0.bb" ∅) !! "foo_1.0.bb"
  = Some [Some "foo"; Some "1.0"; None].
Proof. split; vm_compute; reflexivity. Qed.

Example vars_from_file_other_extension :
  fst (vars_from_file "foo.conf" ∅) = Ok [None; None; None].
Proof. reflexivity. Qed.

(** ** Stat cache *)

Section StatCacheFacts.

Variable fs : FS.
Variable f : string.

Lemma cached_mtime_hit st v :
  __mtime_cache st !! f = Some v ->
  cached_mtime fs f st = (Ok v, st).
Proof.
  intros Hv. unfold cached_mtime. unfold_py. rewrite Hv. simpl.
  rewrite Hv. reflexivity.
Qed.

Lemma cached_mtime_miss st :
  __mtime_cache st !! f = None ->
  cached_mtime fs f st =
    match os_stat fs f with
    | Some res =>
        (Ok (fingerprint_of res),
         mkStatCache (<[f := fingerprint_of res]> (__mtime_cache st))
                     (stat_calls st ++ [f]))
    | None =>
        (Raise (OSError f), mkStatCache (__mtime_cache st) (stat_calls st ++ [f]))
    end.
Proof.
  intros Hv. unfold cached_mtime. unfold_py. rewrite Hv. simpl.
  destruct (os_stat fs f) as [res|]; simpl; [|reflexivity].
  rewrite lookup_insert_eq. reflexivity.
Qed.

Lemma cached_mtime_noerror_hit st v :
  __mtime_cache st !! f = Some v ->
  cached_mtime_noerror fs f st = (Ok v, st).
Proof.
  intros Hv. unfold cached_mtime_noerror. unfold_py. rewrite Hv. simpl.
  rewrite Hv. reflexivity.
Qed.

Lemma cached_mtime_noerror_miss st :
  __mtime_cache st !! f = None ->
  cached_mtime_noerror fs f st =
    match os_stat fs f with
    | Some res =>
        (Ok (fingerprint_of res),
         mkStatCache (<[f := fingerprint_of res]> (__mtime_cache st))
                     (stat_calls st ++ [f]))
    | None =>
        (Ok Absent, mkStatCache (__mtime_cache st) (stat_calls st ++ [f]))
    end.
Proof.
  intros Hv. unfold cached_mtime_noerror. unfold_py. rewrite Hv. simpl.
  destruct (os_stat fs f) as [res|]; simpl; [|reflexivity].
  rewrite lookup_insert_eq. reflexivity.
Qed.

Lemma check_mtime_eq st expected :
  check_mtime fs f expected st =
    (Ok (bool_decide (current_fingerprint fs f = expected)),
     mkStatCache
       (match os_stat fs f with
        | Some res => <[f := fingerprint_of res]> (__mtime_cache st)
        | None => __mtime_cache st
        end)
       (stat_calls st ++ [f])).
Proof.
  unfold check_mtime, current_fingerprint. unfold_py.
  destruct (os_stat fs f) as [res|]; reflexivity.
Qed.

Lemma update_mtime_eq st :
  update_mtime fs f st =
    (Ok (current_fingerprint fs f),
     mkStatCache
       (match os_stat fs f with
        | Some res => <[f := fingerprint_of res]> (__mtime_cache st)
        | None => delete f (__mtime_cache st)
        end)
       (stat_calls st ++ [f])).
Proof.
  unfold update_mtime, current_fingerprint. unfold_py.
  destruct (os_stat fs f) as [res|]; simpl.
  - rewrite lookup_insert_eq. reflexivity.
  - destruct (__mtime_cache st !! f) as [v|] eqn:Hv; simpl; [reflexivity|].
    rewrite delete_id by exact Hv. reflexivity.
Qed.

Lemma update_cache_eq st :
  snd (update_cache fs f st) =
    match __mtime_cache st !! f with
    | Some _ => snd (update_mtime fs f st)
    | None => st
    end.
Proof.
  unfold update_cache. unfold_py.
  destruct (__mtime_cache st !! f) as [v|] eqn:Hv; simpl; [|reflexivity].
  destruct (update_mtime fs f st) as [[r|e] st']; reflexivity.
Qed.

End StatCacheFacts.

Lemma fingerprint_of_real res : fingerprint_of res ≠ Absent.
Proof. discriminate. Qed.

Lemma no_sentinel_insert st g res calls :
  no_sentinel st ->
  no_sentinel (mkStatCache (<[g := fingerprint_of res]> (__mtime_cache st)) calls).
Proof.
  intros Hst h. simpl. destruct (decide (g = h)) as [->|Hne].
  - rewrite lookup_insert_eq. discriminate.
  - rewrite lookup_insert_ne by exact Hne. apply Hst.
Qed.

Lemma no_sentinel_delete st g calls :
  no_sentinel st ->
  no_sentinel (mkStatCache (delete g (__mtime_cache st)) calls).
Proof.
  intros Hst h. simpl. destruct (decide (g = h)) as [->|Hne].
  - rewrite lookup_delete_eq. discriminate.
  - rewrite lookup_delete_ne by exact Hne. apply Hst.
Qed.

Lemma no_sentinel_calls st calls :
  no_sentinel st -> no_sentinel (mkStatCache (__mtime_cache st) calls).
Proof. intros Hst h. apply Hst. Qed.

Lemma no_sentinel_update_mtime fs g st :
  no_sentinel st -> no_sentinel (snd (update_mtime fs g st)).
Proof.
  intros Hst. rewrite update_mtime_eq. simpl.
  destruct (os_stat fs g); [apply no_sentinel_insert|apply no_sentinel_delete];
    exact Hst.
Qed.

(** Every operation keeps the sentinel out of the cache. *)
Lemma no_sentinel_run_op fs op st :
  no_sentinel st -> no_sentinel (run_op fs op st).
Proof.
  intros Hst. destruct op as [g|g|g expected|g|g|]; simpl.
  - destruct (__mtime_cache st !! g) as [v|] eqn:Hv.
    + rewrite (cached_mtime_hit fs g st v Hv). exact Hst.
    + rewrite (cached_mtime_miss fs g st Hv).
      destruct (os_stat fs g); simpl;
        [apply no_sentinel_insert|apply no_sentinel_calls]; exact Hst.
  - destruct (__mtime_cache st !! g) as [v|] eqn:Hv.
    + rewrite (cached_mtime_noerror_hit fs g st v Hv). exact Hst.
    + rewrite (cached_mtime_noerror_miss fs g st Hv).
      destruct (os_stat fs g); simpl;
        [apply no_sentinel_insert|apply no_sentinel_calls]; exact Hst.
  - rewrite check_mtime_eq. simpl.
    destruct (os_stat fs g);
      [apply no_sentinel_insert|apply no_sentinel_calls]; exact Hst.
  - apply no_sentinel_update_mtime, Hst.
  - rewrite update_cache_eq.
    destruct (__mtime_cache st !! g); [apply no_sentinel_update_mtime|]; exact Hst.
  - intros h. simpl. rewrite lookup_empty. discriminate.
Qed.

Lemma no_sentinel_run_ops ops : forall st,
  no_sentinel st -> no_sentinel (run_ops ops st).
Proof.
  induction ops as [|[fs op] rest IH]; intros st Hst; simpl.
  - exact Hst.
  - apply IH, no_sentinel_run_op, Hst.
Qed.

Lemma no_sentinel_empty : no_sentinel empty_cache.
Proof. intros f. simpl. rewrite lookup_empty. discriminate. Qed.

(** An operation that neither refreshes nor checks [f] leaves a stored entry
    of [f] as it is. *)
Lemma run_op_keeps_entry fs op f v st :
  refreshes f op = false ->
  __mtime_cache st !! f = Some v ->
  __mtime_cache (run_op fs op st) !! f = Some v.
Proof.
  intros Hop Hv.
  assert (Hins : forall g res, g ≠ f \/ __mtime_cache st !! g = None ->
            <[g := fingerprint_of res]> (__mtime_cache st) !! f = Some v).
  { intros g res [Hne|Hg].
    - rewrite lookup_insert_ne by exact Hne. exact Hv.
    - rewrite lookup_insert_ne; [exact Hv|]. intros ->. congruence. }
  destruct op as [g|g|g expected|g|g|]; simpl in *;
    try (apply bool_decide_eq_false in Hop); try discriminate.
  - destruct (__mtime_cache st !! g) as [w|] eqn:Hw.
    + rewrite (cached_mtime_hit fs g st w Hw). exact Hv.
    + rewrite (cached_mtime_miss fs g st Hw).
      destruct (os_stat fs g); simpl; [apply Hins; right; exact Hw|exact Hv].
  - destruct (__mtime_cache st !! g) as [w|] eqn:Hw.
    + rewrite (cached_mtime_noerror_hit fs g st w Hw). exact Hv.
    + rewrite (cached_mtime_noerror_miss fs g st Hw).
      destruct (os_stat fs g); simpl; [apply Hins; right; exact Hw|exact Hv].
  - rewrite check_mtime_eq. simpl.
    destruct (os_stat fs g); [apply Hins; left; exact Hop|exact Hv].
  - rewrite update_mtime_eq. simpl.
    destruct (os_stat fs g); [apply Hins; left; exact Hop|].
    rewrite lookup_delete_ne by exact Hop. exact Hv.
  - rewrite update_cache_eq. destruct (__mtime_cache st !! g); [|exact Hv].
    rewrite update_mtime_eq. simpl.
    destruct (os_stat fs g); [apply Hins; left; exact Hop|].
    rewrite lookup_delete_ne by exact Hop. exact Hv.
Qed.

Lemma run_ops_keep_entry f v ops : forall st,
  Forall (fun x => refreshes f (snd x) = false) ops ->
  __mtime_cache st !! f = Some v ->
  __mtime_cache (run_ops ops st) !! f = Some v.
Proof.
  induction ops as [|[fs op] rest IH]; intros st Hops Hv; simpl.
  - exact Hv.
  - inversion Hops as [|x l Hop Hrest]; subst. simpl in Hop.
    apply IH; [exact Hrest|]. apply run_op_keeps_entry; assumption.
Qed.

(** C2, as the code has it: [check_mtime] stats the path again and answers
    whether the fingerprint just read (the sentinel when the stat fails)
    equals the expected one; when the stat succeeds the cache entry of the
    path becomes that fingerprint. *)
Theorem check_mtime_restats_and_compares fs f expected st :
  exists b st',
    check_mtime fs f expected st = (Ok b, st') /\
    stat_calls st' = stat_calls st ++ [f] /\
    (b = true <-> current_fingerprint fs f = expected) /\
    (is_Some (os_stat fs f) ->
       __mtime_cache st' = <[f := current_fingerprint fs f]> (__mtime_cache st)).
Proof.
  eexists _, _. split; [apply check_mtime_eq|]. simpl.
  split; [reflexivity|]. split; [apply bool_decide_eq_true|].
  unfold current_fingerprint. intros [res Hres]. rewrite Hres. reflexivity.
Qed.

Lemma check_mtime_restats_and_compares_witness :
  (exists b st',
     check_mtime (fs_single "a.bb" sample_stat) "a.bb" (Stamp 1700000000 42 7)
       empty_cache = (Ok b, st') /\
     b = true /\
     __mtime_cache st' !! "a.bb" = Some (Stamp 1700000000 42 7)) /\
  (exists b st',
     check_mtime fs_empty "a.bb" Absent empty_cache = (Ok b, st') /\
     b = true).
Proof.
  split.
  - destruct (check_mtime_restats_and_compares
                (fs_single "a.bb" sample_stat) "a.bb" (Stamp 1700000000 42 7)
                empty_cache) as (b & st' & Hrun & _ & Hb & Hhit).
    exists b, st'. split; [exact Hrun|]. split.
    + apply Hb. reflexivity.
    + rewrite Hhit by (eexists; reflexivity). apply lookup_insert_eq.
  - destruct (check_mtime_restats_and_compares fs_empty "a.bb" Absent
                empty_cache) as (b & st' & Hrun & _ & Hb & _).
    exists b, st'. split; [exact Hrun|]. apply Hb. reflexivity.
Defined.

(** C2 as stated fails when the stat fails: afterwards the cache entry of
    the path is not the current (sentinel) fingerprint. *)
Lemma check_mtime_failed_stat_keeps_entry :
  current_fingerprint fs_empty "a.bb" = Absent /\
  __mtime_cache
    (snd (check_mtime fs_empty "a.bb" Absent
            (mkStatCache {["a.bb" := Stamp 1 2 3]} []))) !! "a.bb"
  ≠ Some (current_fingerprint fs_empty "a.bb").
Proof.
  split; [reflexivity|]. rewrite check_mtime_eq. simpl.
  rewrite lookup_singleton_eq. discriminate.
Qed.

(** C5: when [cached_mtime] returns a fingerprint for [f], a second call
    returns the same fingerprint, whatever lookups and whatever operations
    on other paths came in between, as long as none of them refreshed or
    checked [f]; the second call stats nothing, and the first call stats
    exactly when [f] had no entry yet. *)
Theorem cached_mtime_memoized fs fs2 f st v st1 ops :
  cached_mtime fs f st = (Ok v, st1) ->
  Forall (fun x => refreshes f (snd x) = false) ops ->
  let st2 := run_ops ops st1 in
  cached_mtime fs2 f st2 = (Ok v, st2) /\
  stat_calls (snd (cached_mtime fs2 f st2)) = stat_calls st2 /\
  stat_calls st1 =
    stat_calls st ++ match __mtime_cache st !! f with Some _ => [] | None => [f] end.
Proof.
  intros Hfirst Hops st2.
  assert (Hentry : __mtime_cache st1 !! f = Some v /\
            stat_calls st1 =
              stat_calls st ++ match __mtime_cache st !! f with Some _ => [] | None => [f] end).
  { destruct (__mtime_cache st !! f) as [w|] eqn:Hw.
    - rewrite (cached_mtime_hit fs f st w Hw) in Hfirst.
      inversion Hfirst; subst. rewrite app_nil_r. split; [exact Hw|reflexivity].
    - rewrite (cached_mtime_miss fs f st Hw) in Hfirst.
      destruct (os_stat fs f) as [res|]; [|discriminate].
      inversion Hfirst; subst. simpl. split; [apply lookup_insert_eq|reflexivity]. }
  destruct Hentry as [Hentry Hcalls].
  assert (Hsecond : cached_mtime fs2 f st2 = (Ok v, st2)).
  { apply cached_mtime_hit. apply run_ops_keep_entry; assumption. }
  split; [exact Hsecond|]. split; [rewrite Hsecond; reflexivity|exact Hcalls].
Qed.

Lemma cached_mtime_memoized_witness :
  let st1 := snd (cached_mtime (fs_single "a.bb" sample_stat) "a.bb" empty_cache) in
  let st2 := run_ops [(fs_empty, OpLookupNoerror "a.bb");
                      (fs_empty, OpRefresh "b.bb")] st1 in
  cached_mtime (fs_single "a.bb" sample_stat) "a.bb" st2
    = (Ok (Stamp 1700000000 42 7), st2) /\
  stat_calls st1 = ["a.bb"].
Proof.
  intros st1 st2.
  destruct (cached_mtime_memoized
              (fs_single "a.bb" sample_stat) (fs_single "a.bb" sample_stat)
              "a.bb" empty_cache (Stamp 1700000000 42 7) st1
              [(fs_empty, OpLookupNoerror "a.bb"); (fs_empty, OpRefresh "b.bb")])
    as (Hsecond & _ & Hcalls).
  - reflexivity.
  - repeat constructor.
  - split; [exact Hsecond|exact Hcalls].
Defined.

(** C7: [update_mtime] returns the current fingerprint of [f] (the sentinel
    when [f] cannot be stat'd), and [check_mtime] called with that value on
    the same filesystem returns true. *)
Theorem check_after_refresh fs f st :
  exists v st1,
    update_mtime fs f st = (Ok v, st1) /\
    v = current_fingerprint fs f /\
    fst (check_mtime fs f v st1) = Ok true.
Proof.
  eexists _, _. split; [apply update_mtime_eq|]. split; [reflexivity|].
  rewrite check_mtime_eq. simpl. rewrite bool_decide_eq_true_2; reflexivity.
Qed.

(** C10: starting from the empty cache, no sequence of operations, under
    any filesystems, leaves the sentinel in the cache, and every operation
    keeps it out.  A [cached_mtime_noerror] whose stat fails returns the
    sentinel and leaves the cache map alone, so that a later call stats
    again and sees a file created meanwhile; an [update_mtime] whose stat
    fails returns the sentinel and deletes the entry. *)
Theorem cache_never_holds_sentinel :
  (forall ops, no_sentinel (run_ops ops empty_cache)) /\
  (forall ops st, no_sentinel st -> no_sentinel (run_ops ops st)) /\
  (forall fs f st,
     __mtime_cache st !! f = None -> os_stat fs f = None ->
     exists st',
       cached_mtime_noerror fs f st = (Ok Absent, st') /\
       __mtime_cache st' = __mtime_cache st /\
       forall fs' res, os_stat fs' f = Some res ->
         exists st'',
           cached_mtime_noerror fs' f st' = (Ok (fingerprint_of res), st'') /\
           stat_calls st'' = stat_calls st' ++ [f]) /\
  (forall fs f st,
     os_stat fs f = None ->
     exists st',
       update_mtime fs f st = (Ok Absent, st') /\
       __mtime_cache st' = delete f (__mtime_cache st) /\
       __mtime_cache st' !! f = None).
Proof.
  split; [|split; [|split]].
  - intros ops. apply no_sentinel_run_ops, no_sentinel_empty.
  - intros ops st. apply no_sentinel_run_ops.
  - intros fs f st Hf Hstat. eexists. split; [|split].
    + rewrite (cached_mtime_noerror_miss fs f st Hf), Hstat. reflexivity.
    + reflexivity.
    + intros fs' res Hres. eexists. split.
      * rewrite cached_mtime_noerror_miss by exact Hf. rewrite Hres. reflexivity.
      * reflexivity.
  - intros fs f st Hstat. eexists. split; [|split].
    + rewrite update_mtime_eq. unfold current_fingerprint. rewrite Hstat.
      reflexivity.
    + reflexivity.
    + apply lookup_delete_eq.
Qed.

Lemma cache_never_holds_sentinel_witness :
  no_sentinel
    (run_ops [(fs_single "a.bb" sample_stat, OpLookup "a.bb");
              (fs_empty, OpCheck "a.bb" Absent)]
       (mkStatCache {["b.bb" := Stamp 1 2 3]} [])) /\
  fst (cached_mtime_noerror fs_empty "a.bb" empty_cache) = Ok Absent /\
  fst (update_mtime fs_empty "a.bb" (mkStatCache {["a.bb" := Stamp 1 2 3]} []))
    = Ok Absent.
Proof.
  destruct cache_never_holds_sentinel as (_ & Hkeep & Hnoerror & Hrefresh).
  split; [|split].
  - apply Hkeep. intros g. simpl.
    destruct (decide ("b.bb" = g)) as [<-|Hne].
    + rewrite lookup_singleton_eq. discriminate.
    + rewrite lookup_singleton_ne by exact Hne. discriminate.
  - destruct (Hnoerror fs_empty "a.bb" empty_cache) as (st' & Hrun & _).
    + reflexivity.
    + reflexivity.
    + rewrite Hrun. reflexivity.
  - destruct (Hrefresh fs_empty "a.bb"
                (mkStatCache {["a.bb" := Stamp 1 2 3]} [])) as (st' & Hrun & _).
    + reflexivity.
    + rewrite Hrun. reflexivity.
Defined.

(** ** Dependency recorder *)

Lemma cached_mtime_noerror_returns fs p st :
  exists st',
    cached_mtime_noerror fs p st = (Ok (recorded_fingerprint fs st p), st') /\
    (forall q, q ≠ p -> __mtime_cache st' !! q = __mtime_cache st !! q) /\
    (forall fs2, os_stat fs2 p = os_stat fs p ->
       recorded_fingerprint fs2 st' p = recorded_fingerprint fs st p).
Proof.
  unfold recorded_fingerprint, current_fingerprint.
  destruct (__mtime_cache st !! p) as [v|] eqn:Hv.
  - exists st. rewrite (cached_mtime_noerror_hit fs p st v Hv).
    split; [reflexivity|]. split; [reflexivity|]. intros fs2 _. rewrite Hv.
    reflexivity.
  - rewrite (cached_mtime_noerror_miss fs p st Hv).
    destruct (os_stat fs p) as [res|] eqn:Hres; eexists;
      (split; [reflexivity|]); simpl; split.
    + intros q Hq. apply lookup_insert_ne. congruence.
    + intros fs2 _. rewrite lookup_insert_eq. reflexivity.
    + reflexivity.
    + intros fs2 Hsame. rewrite Hv, Hsame. reflexivity.
Qed.

Lemma or_empty_idem {A} (l : list A) : or_empty (Some l) = l.
Proof. destruct l; reflexivity. Qed.

(** What one call of [mark_dependency] does to the store. *)
Lemma mark_dependency_spec fs f w :
  let p := recorded_path fs f in
  let s := (p, recorded_fingerprint fs (cache w) p) in
  let deps := depends_of (data w) in
  exists w',
    mark_dependency fs f w = (Ok tt, w') /\
    depends_of (data w') = (if decide (s ∈ deps) then deps else deps ++ [s]) /\
    var_BBPATH (data w') = var_BBPATH (data w) /\
    (forall q, q ≠ p ->
       __mtime_cache (cache w') !! q = __mtime_cache (cache w) !! q) /\
    (forall fs2, os_stat fs2 p = os_stat fs p ->
       recorded_fingerprint fs2 (cache w') p
       = recorded_fingerprint fs (cache w) p).
Proof.
  intros p s deps.
  destruct (cached_mtime_noerror_returns fs p (cache w))
    as (st' & Hrun & Hother & Hsame).
  unfold mark_dependency. fold (recorded_path fs f). fold p. unfold_py.
  simpl. rewrite Hrun. fold s. fold (depends_of (data w)). fold deps.
  destruct (decide (s ∈ deps)) as [Hin|Hnin].
  - rewrite bool_decide_eq_true_2 by exact Hin. simpl.
    eexists. split; [reflexivity|]. simpl. repeat split; assumption.
  - rewrite bool_decide_eq_false_2 by exact Hnin. simpl.
    eexists. split; [reflexivity|]. simpl. unfold depends_of at 1. simpl.
    split; [apply (or_empty_idem (deps ++ [s]))|]. repeat split; assumption.
Qed.

Lemma copies_absent s deps : s ∉ deps -> copies s deps = 0%nat.
Proof.
  unfold copies. induction deps as [|x rest IH]; intros Hnin; [reflexivity|].
  rewrite filter_cons. destruct (decide (x = s)) as [->|Hne].
  - exfalso. apply Hnin. left.
  - apply IH. intros Hin. apply Hnin. right. exact Hin.
Qed.

Lemma copies_snoc s deps : copies s (deps ++ [s]) = S (copies s deps).
Proof.
  unfold copies. rewrite filter_app, length_app. simpl.
  rewrite filter_cons. destruct (decide (s = s)); [|congruence].
  simpl. lia.
Qed.

Lemma copies_present s deps : s ∈ deps -> (1 <= copies s deps)%nat.
Proof.
  unfold copies. induction deps as [|x rest IH]; intros Hin.
  - inversion Hin.
  - rewrite filter_cons. destruct (decide (x = s)) as [->|Hne].
    + simpl. lia.
    + apply IH. inversion Hin; subst; [congruence|assumption].
Qed.

(** A duplicate-free set holds no pair more than once. *)
Lemma copies_NoDup s deps : NoDup deps -> (copies s deps <= 1)%nat.
Proof.
  unfold copies. induction 1 as [|x rest Hx Hrest IH].
  - simpl. lia.
  - rewrite filter_cons. destruct (decide (x = s)) as [->|Hne].
    + simpl. pose proof (copies_absent s rest Hx) as Hzero.
      unfold copies in Hzero. lia.
    + exact IH.
Qed.

Lemma NoDup_snoc_fresh (s : dep) deps :
  NoDup deps -> s ∉ deps -> NoDup (deps ++ [s]).
Proof.
  intros Hnd Hnin. apply NoDup_app. split; [exact Hnd|].
  split; [|apply NoDup_singleton].
  intros x Hx Hxs. apply list_elem_of_singleton in Hxs. subst. contradiction.
Qed.

Lemma recorded_present (s : dep) deps :
  s ∈ (if decide (s ∈ deps) then deps else deps ++ [s]).
Proof.
  destruct (decide (s ∈ deps)) as [Hin|Hnin]; [exact Hin|].
  apply elem_of_app. right. left.
Qed.

Lemma recorded_keeps (s x : dep) deps :
  x ∈ deps -> x ∈ (if decide (s ∈ deps) then deps else deps ++ [s]).
Proof.
  intros Hx. destruct (decide (s ∈ deps)); [exact Hx|].
  apply elem_of_app. left. exact Hx.
Qed.

(** Recording keeps a duplicate-free dependency set duplicate-free. *)
Lemma mark_dependency_NoDup fs f w :
  NoDup (depends_of (data w)) ->
  NoDup (depends_of (data (snd (mark_dependency fs f w)))).
Proof.
  intros Hnd. destruct (mark_dependency_spec fs f w) as (w' & Hrun & Hdeps & _).
  rewrite Hrun. simpl. rewrite Hdeps.
  destruct (decide _) as [Hin|Hnin]; [exact Hnd|].
  apply NoDup_snoc_fresh; assumption.
Qed.

(** A run of [for af in attempts: mark_dependency(d, af)]. *)
Lemma for_each_mark_dependency fs attempts : forall w,
  exists w',
    for_each attempts (mark_dependency fs) w = (Ok tt, w') /\
    var_BBPATH (data w') = var_BBPATH (data w) /\
    (forall s, s ∈ depends_of (data w) -> s ∈ depends_of (data w')) /\
    (forall af, af ∈ attempts ->
       exists m, (recorded_path fs af, m) ∈ depends_of (data w')).
Proof.
  induction attempts as [|af rest IH]; intros w; simpl.
  - exists w. unfold ret. split; [reflexivity|]. split; [reflexivity|].
    split; [auto|]. intros af Haf. inversion Haf.
  - destruct (mark_dependency_spec fs af w) as (w1 & Hrun & Hdeps & Hpath & _).
    destruct (IH w1) as (w' & Hrest & Hpath' & Hmono & Hall).
    exists w'. unfold bind. rewrite Hrun. split; [exact Hrest|].
    split; [congruence|].
    assert (Hstep : forall s, s ∈ depends_of (data w) -> s ∈ depends_of (data w1)).
    { intros s Hs. rewrite Hdeps. apply recorded_keeps, Hs. }
    split; [intros s Hs; apply Hmono, Hstep, Hs|].
    intros af' Haf'. apply elem_of_cons in Haf' as [->|Hin]; [|apply Hall, Hin].
    eexists. apply Hmono. rewrite Hdeps. apply recorded_present.
Qed.

(** When no candidate exists, [which] probes every directory and finds
    nothing. *)
Lemma which_loop_none fs item paths : forall hist,
  (forall p, p ∈ paths -> os_path_exists fs (OsPath.join p item) = false) ->
  which_loop fs paths item hist
  = (EmptyString, hist ++ ((fun p => OsPath.join p item) <$> paths)).
Proof.
  induction paths as [|p rest IH]; intros hist Hnone; simpl.
  - rewrite app_nil_r. reflexivity.
  - rewrite (Hnone p) by left. rewrite IH.
    + rewrite <- app_assoc. reflexivity.
    + intros q Hq. apply Hnone. right. exact Hq.
Qed.

Lemma join_relative dir fn :
  OsPath.isabs fn = false ->
  OsPath.join dir fn
  = if String.eqb dir "" || Str.endswith "/" dir then dir +:+ fn
    else dir +:+ "/" +:+ fn.
Proof. unfold OsPath.isabs, OsPath.join. intros ->. reflexivity. Qed.

(** C6: on a context whose dependency set does not already hold the pair
    more than once (as in every set that recording built up), recording
    the same path twice, the path's fingerprint being the same at both
    calls, leaves exactly one copy of the pair, and the second call changes
    nothing in the set. *)
Theorem mark_dependency_idempotent fs fs2 f w :
  os_getcwd fs2 = os_getcwd fs ->
  os_stat fs2 (recorded_path fs f) = os_stat fs (recorded_path fs f) ->
  let p := recorded_path fs f in
  let s := (p, recorded_fingerprint fs (cache w) p) in
  (copies s (depends_of (data w)) <= 1)%nat ->
  exists w1 w2,
    mark_dependency fs f w = (Ok tt, w1) /\
    mark_dependency fs2 f w1 = (Ok tt, w2) /\
    depends_of (data w2) = depends_of (data w1) /\
    copies s (depends_of (data w2)) = 1%nat.
Proof.
  intros Hcwd Hstat p s Hle.
  destruct (mark_dependency_spec fs f w) as (w1 & Hrun1 & Hdeps1 & _ & _ & Hfp).
  destruct (mark_dependency_spec fs2 f w1) as (w2 & Hrun2 & Hdeps2 & _).
  assert (Hp : recorded_path fs2 f = recorded_path fs f).
  { unfold recorded_path. rewrite Hcwd. reflexivity. }
  rewrite Hp in Hdeps2. rewrite (Hfp fs2 Hstat) in Hdeps2.
  fold p in Hdeps1, Hdeps2. fold s in Hdeps1, Hdeps2.
  assert (Hin : s ∈ depends_of (data w1)).
  { rewrite Hdeps1. apply recorded_present. }
  rewrite decide_True in Hdeps2 by exact Hin.
  exists w1, w2. split; [exact Hrun1|]. split; [exact Hrun2|].
  split; [exact Hdeps2|]. rewrite Hdeps2, Hdeps1.
  destruct (decide (s ∈ depends_of (data w))) as [Hold|Hnew].
  - pose proof (copies_present s _ Hold). lia.
  - rewrite copies_snoc, (copies_absent s _ Hnew). reflexivity.
Qed.

Lemma mark_dependency_idempotent_witness :
  let w := mkParse empty_cache (mkData None None None []) in
  let fs := fs_single "/work/a.bb" sample_stat in
  exists w1 w2,
    mark_dependency fs "./a.bb" w = (Ok tt, w1) /\
    mark_dependency fs "./a.bb" w1 = (Ok tt, w2) /\
    copies ("/work/a.bb", Stamp 1700000000 42 7) (depends_of (data w2)) = 1%nat.
Proof.
  intros w fs.
  destruct (mark_dependency_idempotent fs fs "./a.bb" w)
    as (w1 & w2 & Hrun1 & Hrun2 & _ & Hcopies).
  - reflexivity.
  - reflexivity.
  - unfold copies. simpl. lia.
  - exists w1, w2. split; [exact Hrun1|]. split; [exact Hrun2|exact Hcopies].
Defined.

(** C3: with the search path [/a:/b] and a relative file name present only
    under [/b], [resolve_file] records a pair for the candidate under [/a]
    and one for the candidate under [/b], each with the fingerprint the
    absent-tolerant lookup gives, and returns the path under [/b].  When
    no directory of the search path holds the file it raises the not-found
    error whose message ends with the search path, after recording every
    candidate; for an absolute path that is not an existing file it raises
    the not-found error naming that path. *)
Theorem resolve_file_search_path :
  (forall fs fn w,
     OsPath.isabs fn = false ->
     var_BBPATH (data w) = Some "/a:/b" ->
     os_path_exists fs ("/a/" +:+ fn) = false ->
     os_path_isfile fs ("/b/" +:+ fn) = true ->
     exists w',
       resolve_file fs fn w = (Ok ("/b/" +:+ fn), w') /\
       ("/a/" +:+ fn, recorded_fingerprint fs (cache w) ("/a/" +:+ fn))
         ∈ depends_of (data w') /\
       ("/b/" +:+ fn, recorded_fingerprint fs (cache w) ("/b/" +:+ fn))
         ∈ depends_of (data w')) /\
  (forall fs fn w,
     OsPath.isabs fn = false ->
     (forall dir,
        dir ∈ Str.split ":" (default EmptyString (var_BBPATH (data w))) ->
        os_path_exists fs (OsPath.join dir fn) = false) ->
     exists w',
       resolve_file fs fn w
       = (Raise (IOError ENOENT
                   ("file " +:+ fn +:+ " not found in "
                    +:+ fmt_opt (var_BBPATH (data w)))), w') /\
       forall dir,
         dir ∈ Str.split ":" (default EmptyString (var_BBPATH (data w))) ->
         exists m,
           (recorded_path fs (OsPath.join dir fn), m) ∈ depends_of (data w')) /\
  (forall fs fn w,
     OsPath.isabs fn = true ->
     os_path_isfile fs fn = false ->
     exists w',
       resolve_file fs fn w
       = (Raise (IOError ENOENT ("file " +:+ fn +:+ " not found")), w') /\
       exists m, (recorded_path fs fn, m) ∈ depends_of (data w')).
Proof.
  split; [|split].
  - intros fs fn w Hrel Hpath Ha Hb.
    assert (Hbx : os_path_exists fs ("/b/" +:+ fn) = true).
    { unfold os_path_isfile in Hb. unfold os_path_exists.
      destruct (os_stat fs ("/b/" +:+ fn)); [reflexivity|discriminate]. }
    destruct (mark_dependency_spec fs ("/a/" +:+ fn) w)
      as (w1 & Hrun1 & Hdeps1 & _ & Hother1 & _).
    destruct (mark_dependency_spec fs ("/b/" +:+ fn) w1)
      as (w2 & Hrun2 & Hdeps2 & _).
    change (recorded_path fs ("/a/" +:+ fn)) with ("/a/" +:+ fn) in *.
    change (recorded_path fs ("/b/" +:+ fn)) with ("/b/" +:+ fn) in *.
    assert (Hfp : recorded_fingerprint fs (cache w1) ("/b/" +:+ fn)
                  = recorded_fingerprint fs (cache w) ("/b/" +:+ fn)).
    { unfold recorded_fingerprint. rewrite Hother1; [reflexivity|].
      simpl. intros Heq. inversion Heq. }
    rewrite Hfp in Hdeps2.
    exists w2. split; [|split].
    + assert (Hja : OsPath.join "/a" fn = "/a/" +:+ fn)
        by (rewrite (join_relative "/a" fn Hrel); reflexivity).
      assert (Hjb : OsPath.join "/b" fn = "/b/" +:+ fn)
        by (rewrite (join_relative "/b" fn Hrel); reflexivity).
      unfold resolve_file, bind, getVar, which. rewrite Hrel. simpl.
      rewrite Hpath. simpl. rewrite Hja, Hjb, Ha, Hbx.
      cbn [for_each]. unfold bind. rewrite Hrun1, Hrun2. unfold ret.
      change (String.eqb ("/b/" +:+ fn) "") with false. cbv beta iota.
      rewrite Hb. reflexivity.
    + rewrite Hdeps2. apply recorded_keeps. rewrite Hdeps1.
      apply recorded_present.
    + rewrite Hdeps2. apply recorded_present.
  - intros fs fn w Hrel Hnone.
    destruct (for_each_mark_dependency fs
                ((fun p => OsPath.join p fn)
                   <$> Str.split ":" (default EmptyString (var_BBPATH (data w)))) w)
      as (w' & Hrun & _ & _ & Hall).
    exists w'. split.
    + unfold resolve_file, bind, getVar, which. rewrite Hrel. simpl.
      rewrite (which_loop_none fs fn _ [] Hnone). simpl.
      unfold bind. rewrite Hrun. reflexivity.
    + intros dir Hdir. apply Hall.
      apply (list_elem_of_fmap_2 (fun p => OsPath.join p fn)), Hdir.
  - intros fs fn w Habs Hfile.
    destruct (mark_dependency_spec fs fn w) as (w' & Hrun & Hdeps & _).
    exists w'. split.
    + unfold resolve_file, bind. rewrite Habs. simpl. unfold bind.
      rewrite Hrun. unfold ret. rewrite Hfile. reflexivity.
    + eexists. rewrite Hdeps. apply recorded_present.
Qed.

Lemma resolve_file_search_path_witness :
  (exists w',
     resolve_file (fs_single "/b/foo.bb" sample_stat) "foo.bb" sample_context
     = (Ok "/b/foo.bb", w') /\
     ("/a/foo.bb", Absent) ∈ depends_of (data w') /\
     ("/b/foo.bb", Stamp 1700000000 42 7) ∈ depends_of (data w')) /\
  (exists w',
     resolve_file fs_empty "foo.bb" sample_context
     = (Raise (IOError 2 "file foo.bb not found in /a:/b"), w')) /\
  (exists w',
     resolve_file fs_empty "/b/foo.bb" sample_context
     = (Raise (IOError 2 "file /b/foo.bb not found"), w')).
Proof.
  destruct resolve_file_search_path as (Hfound & Hnowhere & Habsolute).
  split; [|split].
  - destruct (Hfound (fs_single "/b/foo.bb" sample_stat) "foo.bb" sample_context)
      as (w' & Hrun & Ha & Hb); try reflexivity.
    exists w'. split; [exact Hrun|]. split; [exact Ha|exact Hb].
  - destruct (Hnowhere fs_empty "foo.bb" sample_context) as (w' & Hrun & _).
    + reflexivity.
    + intros dir _. reflexivity.
    + exists w'. exact Hrun.
  - destruct (Habsolute fs_empty "/b/foo.bb" sample_context) as (w' & Hrun & _);
      try reflexivity.
    exists w'. exact Hrun.
Defined.

(** ** Handler dispatch *)

Section DispatchFacts.

Variable R : Type.
Variable fn : string.
Variable include : Z.
Variable baseconfig : bool.

(** The loop walks past the handlers that refuse the path and stops at the
    first that accepts it. *)
Lemma handle_from_first_match (hs : list (Handler R)) : forall k d calls i h,
  hs !! i = Some h ->
  h_supports h fn d = true ->
  (forall j h', (j < i)%nat -> hs !! j = Some h' -> h_supports h' fn d = false) ->
  handle_from R k hs fn include baseconfig (mkRun d calls)
  = (fst (h_handle h fn (set_inchistory d (fn :: inchistory d)) include baseconfig),
     let d' := snd (h_handle h fn (set_inchistory d (fn :: inchistory d))
                      include baseconfig) in
     mkRun (set_inchistory d' (tail (inchistory d')))
           (calls ++ (CallSupports <$> seq k (S i))
                  ++ [EnterInclude fn; CallHandle (k + i); ExitInclude])).
Proof.
  induction hs as [|h0 rest IH]; intros k d calls i h Hi Hyes Hno.
  - rewrite lookup_nil in Hi. discriminate.
  - destruct i as [|i]; simpl in Hi.
    + inversion Hi; subst h0. simpl.
      unfold bind, call_supports, call_handle, with_include, log, bind. simpl.
      rewrite Hyes. simpl.
      destruct (h_handle h fn _ include baseconfig) as [r d'] eqn:Hcall. simpl.
      rewrite Nat.add_0_r, <- !app_assoc. reflexivity.
    + simpl. unfold bind at 1. unfold call_supports, log, bind. simpl.
      rewrite (Hno 0%nat h0) by first [lia | reflexivity].
      rewrite (IH (S k) d (calls ++ [CallSupports k]) i h Hi Hyes).
      * rewrite <- !app_assoc. simpl. rewrite Nat.add_succ_r. reflexivity.
      * intros j h' Hj Hj'. apply (Hno (S j) h'); [lia|exact Hj'].
Qed.

Lemma handle_from_no_match (hs : list (Handler R)) : forall k d calls,
  (forall h, h ∈ hs -> h_supports h fn d = false) ->
  handle_from R k hs fn include baseconfig (mkRun d calls)
  = (Raise (ParseError "not a BitBake file" fn 0),
     mkRun d (calls ++ (CallSupports <$> seq k (length hs)))).
Proof.
  induction hs as [|h0 rest IH]; intros k d calls Hno; simpl.
  - rewrite app_nil_r. reflexivity.
  - unfold bind at 1. unfold call_supports, log, bind. simpl.
    rewrite (Hno h0) by left. rewrite IH.
    + rewrite <- app_assoc. reflexivity.
    + intros h Hh. apply Hno. right. exact Hh.
Qed.

Lemma only_handle_logged (i j k n : nat) :
  CallHandle j ∈ (CallSupports <$> seq k n)
                   ++ [EnterInclude fn; CallHandle i; ExitInclude] ->
  j = i.
Proof.
  intros Hin. apply elem_of_app in Hin as [Hin|Hin].
  - apply list_elem_of_fmap in Hin as (x & Hx & _). discriminate.
  - repeat (apply elem_of_cons in Hin as [Hin|Hin]; try discriminate).
    + inversion Hin. reflexivity.
    + inversion Hin.
Qed.

End DispatchFacts.

(** C4: when handler number [i] is the first of the registry whose predicate
    accepts the path, [handle] asks the predicates of handlers 0 to [i],
    enters the inclusion scope of the path, calls the entry point of
    handler [i] on a context whose inclusion chain starts with the path,
    leaves the scope and returns (or raises) what that entry point did; no
    other entry point is called.  When no predicate accepts the path it
    raises a [ParseError] carrying the path and calls no entry point. *)
Theorem handle_first_match {R} (handlers : list (Handler R)) fn include
    baseconfig (w : Run) :
  let d := run_data w in
  (forall i h,
     handlers !! i = Some h ->
     h_supports h fn d = true ->
     (forall j h', (j < i)%nat -> handlers !! j = Some h' ->
                   h_supports h' fn d = false) ->
     exists r d' w',
       h_handle h fn (set_inchistory d (fn :: inchistory d)) include baseconfig
       = (r, d') /\
       handle handlers fn include baseconfig w = (r, w') /\
       run_data w' = set_inchistory d' (tail (inchistory d')) /\
       run_calls w'
       = run_calls w ++ (CallSupports <$> seq 0 (S i))
                     ++ [EnterInclude fn; CallHandle i; ExitInclude] /\
       (forall j,
          CallHandle j ∈ (CallSupports <$> seq 0 (S i))
                           ++ [EnterInclude fn; CallHandle i; ExitInclude] ->
          j = i)) /\
  ((forall h, h ∈ handlers -> h_supports h fn d = false) ->
   exists w',
     handle handlers fn include baseconfig w
     = (Raise (ParseError "not a BitBake file" fn 0), w') /\
     run_data w' = d /\
     run_calls w' = run_calls w ++ (CallSupports <$> seq 0 (length handlers))).
Proof.
  destruct w as [d calls]. simpl. split.
  - intros i h Hi Hyes Hno.
    destruct (h_handle h fn (set_inchistory d (fn :: inchistory d))
                include baseconfig) as [r d'] eqn:Hcall.
    eexists r, d', _. split; [reflexivity|]. split.
    + unfold handle.
      rewrite (handle_from_first_match R fn include baseconfig handlers
                 0 d calls i h Hi Hyes Hno).
      rewrite Hcall. reflexivity.
    + simpl. split; [reflexivity|]. split; [reflexivity|].
      intros j. apply (only_handle_logged fn i j 0 (S i)).
  - intros Hno. eexists. split.
    + unfold handle. apply handle_from_no_match, Hno.
    + simpl. split; reflexivity.
Qed.

Lemma handle_first_match_witness :
  (exists w',
     handle [handler_A; handler_B] "recipe.bb" 0 false
       (mkRun (mkData None None None []) [])
     = (Ok "A", w') /\
     run_calls w'
     = [CallSupports 0; EnterInclude "recipe.bb"; CallHandle 0; ExitInclude]) /\
  (exists w',
     handle ([] : list (Handler string)) "recipe.bb" 0 false
       (mkRun (mkData None None None []) [])
     = (Raise (ParseError "not a BitBake file" "recipe.bb" 0), w')).
Proof.
  destruct (handle_first_match [handler_A; handler_B] "recipe.bb" 0 false
              (mkRun (mkData None None None []) [])) as [Hfirst _].
  destruct (handle_first_match ([] : list (Handler string)) "recipe.bb" 0 false
              (mkRun (mkData None None None []) [])) as [_ Hnone].
  split.
  - destruct (Hfirst 0%nat handler_A) as (r & d' & w' & Hcall & Hrun & _ & Hcalls & _).
    + reflexivity.
    + reflexivity.
    + intros j h' Hj. lia.
    + exists w'. inversion Hcall; subst. split; [exact Hrun|exact Hcalls].
  - destruct Hnone as (w' & Hrun & _).
    + intros h Hh. inversion Hh.
    + exists w'. exact Hrun.
Defined.

(** ** Filename decomposition *)

Lemma recipe_extension_nonempty mypkg :
  recipe_extension mypkg = true -> String.eqb mypkg "" = false.
Proof.
  intros Hext. destruct mypkg; [discriminate Hext|reflexivity].
Qed.

(** A first call on a name with more than three segments raises, and by
    then the segments are in the cache. *)
Lemma vars_from_file_first_call mypkg (__pkgsplit_cache__ : PkgsplitCache) :
  recipe_extension mypkg = true ->
  __pkgsplit_cache__ !! mypkg = None ->
  (3 < length (segments mypkg))%nat ->
  vars_from_file mypkg __pkgsplit_cache__
  = (Raise (ParseError
              "Unable to generate default variables from filename (too many underscores)"
              mypkg 0),
     <[mypkg := Some <$> segments mypkg]> __pkgsplit_cache__).
Proof.
  intros Hext Hmiss Hlen. unfold vars_from_file.
  rewrite (recipe_extension_nonempty mypkg Hext), Hext, Hmiss. simpl.
  rewrite length_fmap.
  destruct (3 <? length (segments mypkg))%nat eqn:Hcmp; [reflexivity|].
  apply Nat.ltb_ge in Hcmp. lia.
Qed.

(** A call on a name the cache knows returns the stored list, whatever its
    length. *)
Lemma vars_from_file_cached mypkg (__pkgsplit_cache__ : PkgsplitCache) v :
  recipe_extension mypkg = true ->
  __pkgsplit_cache__ !! mypkg = Some v ->
  vars_from_file mypkg __pkgsplit_cache__ = (Ok v, __pkgsplit_cache__).
Proof.
  intros Hext Hhit. unfold vars_from_file.
  rewrite (recipe_extension_nonempty mypkg Hext), Hext, Hhit. reflexivity.
Qed.

(** For every recipe name with more than three segments, the call after
    the one that raised returns the segments. *)
Lemma vars_from_file_repeat mypkg (__pkgsplit_cache__ : PkgsplitCache) :
  recipe_extension mypkg = true ->
  __pkgsplit_cache__ !! mypkg = None ->
  (3 < length (segments mypkg))%nat ->
  exists cache1,
    snd (vars_from_file mypkg __pkgsplit_cache__) = cache1 /\
    vars_from_file mypkg cache1 = (Ok (Some <$> segments mypkg), cache1).
Proof.
  intros Hext Hmiss Hlen. eexists. split; [reflexivity|].
  rewrite (vars_from_file_first_call mypkg __pkgsplit_cache__ Hext Hmiss Hlen).
  simpl. apply vars_from_file_cached; [exact Hext|]. apply lookup_insert_eq.
Qed.

(** C1 does not hold of the code: with nothing cached, the first call on
    [foo_1_2_3.bb] raises the parse error, and the second call on the same
    name returns the four segments that the first call left in the cache. *)
Theorem vars_from_file_second_call_returns :
  fst (vars_from_file "foo_1_2_3.bb" ∅)
  = Raise (ParseError
             "Unable to generate default variables from filename (too many underscores)"
             "foo_1_2_3.bb" 0) /\
  fst (vars_from_file "foo_1_2_3.bb" (snd (vars_from_file "foo_1_2_3.bb" ∅)))
  = Ok [Some "foo"; Some "1"; Some "2"; Some "3"].
Proof. split; vm_compute; reflexivity. Qed.

(** ** Variable-dependency annotations *)

Lemma vardeps_attr varnames f :
  bb_vardeps (vardeps varnames f)
  = Some (default ∅ (bb_vardeps f) ∪ list_to_set varnames).
Proof.
  unfold vardeps. destruct (bb_vardeps f) as [s|] eqn:Hattr; simpl.
  - rewrite Hattr. reflexivity.
  - reflexivity.
Qed.

(** C8: on a function without the attribute, annotating with [A, B] and
    then with [B, C] leaves [bb_vardeps] equal to the set of [A], [B] and
    [C]; a first application creates the attribute holding the given names,
    and an application on a function that has the attribute stores the
    union of the old set and the given names.  Any two applications in a
    row store the union of what was there and both lists of names. *)
Theorem vardeps_unions (A B C : string) :
  (forall f, bb_vardeps f = None ->
     bb_vardeps (vardeps [B; C] (vardeps [A; B] f)) = Some {[A; B; C]}) /\
  (forall varnames f, bb_vardeps f = None ->
     bb_vardeps (vardeps varnames f) = Some (list_to_set varnames)) /\
  (forall varnames f s, bb_vardeps f = Some s ->
     bb_vardeps (vardeps varnames f) = Some (s ∪ list_to_set varnames)) /\
  (forall names1 names2 f,
     bb_vardeps (vardeps names2 (vardeps names1 f))
     = Some (default ∅ (bb_vardeps f) ∪ list_to_set names1 ∪ list_to_set names2)).
Proof.
  split; [|split; [|split]].
  - intros f Hnone. rewrite !vardeps_attr, Hnone. simpl. f_equal.
    apply set_eq. intros x. set_unfold. tauto.
  - intros varnames f Hnone. rewrite vardeps_attr, Hnone. simpl. f_equal.
    apply set_eq. intros x. set_unfold. tauto.
  - intros varnames f s Hs. rewrite vardeps_attr, Hs. reflexivity.
  - intros names1 names2 f. rewrite !vardeps_attr. reflexivity.
Qed.

Lemma vardeps_unions_witness :
  bb_vardeps (vardeps ["B"; "C"] (vardeps ["A"; "B"] (mkFunction "f" None None)))
  = Some {["A"; "B"; "C"]} /\
  bb_vardeps (vardeps ["A"] (mkFunction "f" (Some {["D"]}) None))
  = Some ({["D"]} ∪ list_to_set ["A"]).
Proof.
  destruct (vardeps_unions "A" "B" "C") as (Htwice & _ & Hunion & _).
  split.
  - apply Htwice. reflexivity.
  - apply Hunion. reflexivity.
Defined.

(** ** S3 error mapping *)

(** A 404 delivered as a string is reported as not found, by both paths. *)
Lemma boto_404_not_found s3 ud :
  (S3.head_object s3 (S3.host ud) (Str.lstrip "/" (S3.path ud))
   = S3.ClientError (PStr "404") ->
   S3._boto_checkstatus s3 ud = Raise (S3.not_found_error ud)) /\
  (S3.download_file s3 (S3.host ud) (Str.lstrip "/" (S3.path ud)) (S3.localpath ud)
   = S3.ClientError (PStr "404") ->
   S3._boto_download s3 ud = Raise (S3.not_found_error ud)).
Proof.
  unfold S3._boto_checkstatus, S3._boto_download.
  split; intros ->; reflexivity.
Qed.

(** Only a 403 delivered as an integer is reported as access denied. *)
Lemma boto_checkstatus_access_denied_iff s3 ud code :
  S3.head_object s3 (S3.host ud) (Str.lstrip "/" (S3.path ud))
  = S3.ClientError code ->
  (S3._boto_checkstatus s3 ud = Raise (S3.access_denied_error ud)
   <-> code = PInt 403).
Proof.
  intros Hcall. unfold S3._boto_checkstatus, S3.access_denied_error.
  rewrite Hcall. split.
  - destruct code as [s|n]; simpl.
    + destruct (String.eqb s "404"); simpl; intros H; inversion H.
    + destruct (n =? 403) eqn:Hn; simpl; intros H.
      * apply Z.eqb_eq in Hn. subst. reflexivity.
      * inversion H.
  - intros ->. reflexivity.
Qed.

(** Whether the provider hands its codes out as strings or as integers,
    one of the two codes misses its own error. *)
Lemma boto_no_uniform_code_type (as_code : Z -> pyval) ud :
  as_code = (fun n => PStr (Str.of_Z n)) \/ as_code = PInt ->
  ~ (S3._boto_checkstatus
       (S3.mkClient (fun _ _ => S3.ClientError (as_code 404))
                    (fun _ _ _ => S3.Returns tt)) ud
     = Raise (S3.not_found_error ud) /\
     S3._boto_checkstatus
       (S3.mkClient (fun _ _ => S3.ClientError (as_code 403))
                    (fun _ _ _ => S3.Returns tt)) ud
     = Raise (S3.access_denied_error ud)).
Proof.
  unfold S3._boto_checkstatus, S3.not_found_error, S3.access_denied_error.
  intros [-> | ->]; simpl; intros [H404 H403].
  - inversion H403.
  - inversion H404.
Qed.

(** C9 does not hold of the code: when the provider refuses access and
    reports it as botocore does, with the code 403 as a string, both
    [_boto_checkstatus] and [_boto_download] raise the generic failure,
    not the access-denied error. *)
Theorem boto_403_string_is_generic_failure (ud : S3.UrlData) :
  S3._boto_checkstatus s3_forbidden ud
  = Raise (FetchError ("boto3 failed to access " +:+ S3.url ud
                       +:+ ". Error code: 403")) /\
  S3._boto_download s3_forbidden ud
  = Raise (FetchError ("boto3 failed to download " +:+ S3.url ud
                       +:+ ". Error code: 403")) /\
  S3._boto_checkstatus s3_forbidden ud ≠ Raise (S3.access_denied_error ud) /\
  S3._boto_download s3_forbidden ud ≠ Raise (S3.access_denied_error ud).
Proof.
  unfold S3._boto_checkstatus, S3._boto_download, S3.access_denied_error.
  simpl. repeat split; intros H; inversion H.
Qed.

(** * Further properties *)

(** ** Stat cache: errors, refreshes and locality *)

(** X1: a [cached_mtime] on a path that has no entry and cannot be stat'd
    raises the [OSError] of the stat and memoizes nothing: the cache map is
    as before, and a later call, once the file exists, returns its
    fingerprint. *)
Theorem cached_mtime_missing_raises fs f st :
  __mtime_cache st !! f = None ->
  os_stat fs f = None ->
  exists st',
    cached_mtime fs f st = (Raise (OSError f), st') /\
    __mtime_cache st' = __mtime_cache st /\
    stat_calls st' = stat_calls st ++ [f] /\
    forall fs' res, os_stat fs' f = Some res ->
      fst (cached_mtime fs' f st') = Ok (fingerprint_of res).
Proof.
  intros Hmiss Hstat. eexists. split; [|split; [|split]].
  - rewrite (cached_mtime_miss fs f st Hmiss), Hstat. reflexivity.
  - reflexivity.
  - reflexivity.
  - intros fs' res Hres. rewrite cached_mtime_miss by exact Hmiss.
    rewrite Hres. reflexivity.
Qed.

Lemma cached_mtime_missing_raises_witness :
  fst (cached_mtime fs_empty "a.bb" empty_cache) = Raise (OSError "a.bb") /\
  fst (cached_mtime (fs_single "a.bb" sample_stat) "a.bb"
         (snd (cached_mtime fs_empty "a.bb" empty_cache)))
  = Ok (Stamp 1700000000 42 7).
Proof.
  destruct (cached_mtime_missing_raises fs_empty "a.bb" empty_cache)
    as (st' & Hrun & _ & _ & Hlater); try reflexivity.
  rewrite Hrun. split; [reflexivity|].
  apply (Hlater (fs_single "a.bb" sample_stat) sample_stat). reflexivity.
Defined.

(** X2: the two lookups differ only in how an [OSError] of the stat ends:
    where [cached_mtime] returns a fingerprint, [cached_mtime_noerror]
    returns the same one; where [cached_mtime] raises the [OSError] of the
    stat, [cached_mtime_noerror] returns the sentinel; either way the two
    leave the same cache and the same stat log behind. *)
Theorem lookups_agree fs f st :
  (forall v st',
     cached_mtime fs f st = (Ok v, st') ->
     cached_mtime_noerror fs f st = (Ok v, st')) /\
  (forall st',
     cached_mtime fs f st = (Raise (OSError f), st') ->
     cached_mtime_noerror fs f st = (Ok Absent, st')).
Proof.
  destruct (__mtime_cache st !! f) as [v0|] eqn:Hv.
  - rewrite (cached_mtime_hit fs f st v0 Hv),
      (cached_mtime_noerror_hit fs f st v0 Hv).
    split; [intros v st' Hrun; exact Hrun|intros st' Hrun; discriminate Hrun].
  - rewrite (cached_mtime_miss fs f st Hv),
      (cached_mtime_noerror_miss fs f st Hv).
    destruct (os_stat fs f); split.
    + intros v st' Hrun. exact Hrun.
    + intros st' Hrun. discriminate Hrun.
    + intros v st' Hrun. discriminate Hrun.
    + intros st' Hrun. inversion Hrun. reflexivity.
Qed.

Lemma lookups_agree_witness :
  fst (cached_mtime_noerror (fs_single "a.bb" sample_stat) "a.bb" empty_cache)
  = Ok (Stamp 1700000000 42 7) /\
  fst (cached_mtime_noerror fs_empty "a.bb" empty_cache) = Ok Absent.
Proof.
  split.
  - destruct (lookups_agree (fs_single "a.bb" sample_stat) "a.bb" empty_cache)
      as [Hok _].
    rewrite (Hok (Stamp 1700000000 42 7)
               (snd (cached_mtime (fs_single "a.bb" sample_stat) "a.bb"
                       empty_cache))); reflexivity.
  - destruct (lookups_agree fs_empty "a.bb" empty_cache) as [_ Hraise].
    rewrite (Hraise (snd (cached_mtime fs_empty "a.bb" empty_cache)));
      reflexivity.
Defined.

(** X3: after [clear_cache] the next lookup of any path stats the
    filesystem again and returns the path's current fingerprint, whatever
    the cache held before. *)
Theorem lookup_after_clear fs f st :
  let st0 := snd (clear_cache st) in
  fst (cached_mtime_noerror fs f st0) = Ok (current_fingerprint fs f) /\
  stat_calls (snd (cached_mtime_noerror fs f st0)) = stat_calls st ++ [f] /\
  fst (cached_mtime fs f st0)
  = match os_stat fs f with
    | Some res => Ok (fingerprint_of res)
    | None => Raise (OSError f)
    end.
Proof.
  intros st0.
  assert (Hmiss : __mtime_cache st0 !! f = None) by apply lookup_empty.
  rewrite (cached_mtime_noerror_miss fs f st0 Hmiss),
    (cached_mtime_miss fs f st0 Hmiss).
  unfold current_fingerprint. destruct (os_stat fs f); repeat split.
Qed.

(** X4: after [update_mtime] the absent-tolerant lookup gives the current
    fingerprint, and when the file exists every later lookup returns that
    fingerprint without a stat, also after the file has changed. *)
Theorem lookup_after_refresh fs f st :
  let st1 := snd (update_mtime fs f st) in
  fst (cached_mtime_noerror fs f st1) = Ok (current_fingerprint fs f) /\
  (is_Some (os_stat fs f) ->
   forall fs2, cached_mtime fs2 f st1 = (Ok (current_fingerprint fs f), st1)).
Proof.
  intros st1. unfold st1. rewrite update_mtime_eq. simpl.
  unfold current_fingerprint. destruct (os_stat fs f) as [res|] eqn:Hres.
  - split.
    + erewrite cached_mtime_noerror_hit; [reflexivity|]. simpl.
      apply lookup_insert_eq.
    + intros _ fs2. apply cached_mtime_hit. simpl. apply lookup_insert_eq.
  - split.
    + rewrite cached_mtime_noerror_miss by (simpl; apply lookup_delete_eq).
      rewrite Hres. reflexivity.
    + intros [x Hx]. discriminate.
Qed.

Lemma lookup_after_refresh_witness :
  cached_mtime fs_empty "a.bb"
    (snd (update_mtime (fs_single "a.bb" sample_stat) "a.bb" empty_cache))
  = (Ok (Stamp 1700000000 42 7),
     snd (update_mtime (fs_single "a.bb" sample_stat) "a.bb" empty_cache)).
Proof.
  destruct (lookup_after_refresh (fs_single "a.bb" sample_stat) "a.bb"
              empty_cache) as [_ Hkept].
  apply (Hkept (ex_intro _ sample_stat eq_refl) fs_empty).
Defined.

(** X5: when a cached file has disappeared, [check_mtime] against the
    sentinel answers true, yet the entry stays: both lookups go on returning
    the old fingerprint, without a stat. *)
Theorem check_mtime_leaves_stale_entry fs f st v :
  __mtime_cache st !! f = Some v ->
  os_stat fs f = None ->
  exists st',
    check_mtime fs f Absent st = (Ok true, st') /\
    cached_mtime fs f st' = (Ok v, st') /\
    cached_mtime_noerror fs f st' = (Ok v, st').
Proof.
  intros Hv Hstat. eexists. split; [|split].
  - rewrite check_mtime_eq. unfold current_fingerprint. rewrite Hstat.
    reflexivity.
  - apply cached_mtime_hit. exact Hv.
  - apply cached_mtime_noerror_hit. exact Hv.
Qed.

Lemma check_mtime_leaves_stale_entry_witness :
  exists st',
    check_mtime fs_empty "a.bb" Absent
      (mkStatCache {["a.bb" := Stamp 1 2 3]} []) = (Ok true, st') /\
    cached_mtime_noerror fs_empty "a.bb" st' = (Ok (Stamp 1 2 3), st').
Proof.
  destruct (check_mtime_leaves_stale_entry fs_empty "a.bb"
              (mkStatCache {["a.bb" := Stamp 1 2 3]} []) (Stamp 1 2 3))
    as (st' & Hcheck & _ & Hlookup); try reflexivity.
  exists st'. split; [exact Hcheck|exact Hlookup].
Defined.

(** X6: an operation on one path leaves the entry of every other path as
    it is, present or not; only [clear_cache] reaches beyond its own
    path. *)
Theorem other_paths_untouched fs op st g f :
  op_path op = Some g ->
  g ≠ f ->
  __mtime_cache (run_op fs op st) !! f = __mtime_cache st !! f.
Proof.
  intros Hop Hne.
  assert (Hins : forall res,
            <[g := fingerprint_of res]> (__mtime_cache st) !! f
            = __mtime_cache st !! f).
  { intros res. apply lookup_insert_ne. exact Hne. }
  assert (Hrefresh : __mtime_cache (snd (update_mtime fs g st)) !! f
                     = __mtime_cache st !! f).
  { rewrite update_mtime_eq. simpl.
    destruct (os_stat fs g); [apply Hins|]. apply lookup_delete_ne. exact Hne. }
  destruct op as [h|h|h expected|h|h|]; simpl in Hop; inversion Hop; subst h;
    simpl.
  - destruct (__mtime_cache st !! g) as [w|] eqn:Hw.
    + rewrite (cached_mtime_hit fs g st w Hw). reflexivity.
    + rewrite (cached_mtime_miss fs g st Hw).
      destruct (os_stat fs g); simpl; [apply Hins|reflexivity].
  - destruct (__mtime_cache st !! g) as [w|] eqn:Hw.
    + rewrite (cached_mtime_noerror_hit fs g st w Hw). reflexivity.
    + rewrite (cached_mtime_noerror_miss fs g st Hw).
      destruct (os_stat fs g); simpl; [apply Hins|reflexivity].
  - rewrite check_mtime_eq. simpl.
    destruct (os_stat fs g); [apply Hins|reflexivity].
  - exact Hrefresh.
  - rewrite update_cache_eq.
    destruct (__mtime_cache st !! g); [exact Hrefresh|reflexivity].
Qed.

Lemma other_paths_untouched_witness :
  __mtime_cache
    (run_op fs_empty (OpRefresh "b.bb")
       (mkStatCache {["a.bb" := Stamp 1 2 3]} [])) !! "a.bb"
  = Some (Stamp 1 2 3).
Proof.
  rewrite (other_paths_untouched fs_empty (OpRefresh "b.bb")
             (mkStatCache {["a.bb" := Stamp 1 2 3]} []) "b.bb" "a.bb").
  - reflexivity.
  - reflexivity.
  - discriminate.
Defined.

(** X7: [update_cache] is a refresh for known paths only: on a path without
    an entry it does nothing, not even a stat; on a path with an entry it
    leaves what [update_mtime] leaves.  It never adds a path to the
    cache. *)
Theorem update_cache_known_paths_only fs f st :
  (__mtime_cache st !! f = None -> update_cache fs f st = (Ok tt, st)) /\
  (is_Some (__mtime_cache st !! f) ->
   update_cache fs f st = (Ok tt, snd (update_mtime fs f st))) /\
  dom (__mtime_cache (snd (update_cache fs f st))) ⊆ dom (__mtime_cache st).
Proof.
  split; [|split].
  - intros Hmiss. unfold update_cache. unfold_py. rewrite Hmiss. reflexivity.
  - intros [v Hv]. unfold update_cache. unfold_py. rewrite Hv. simpl.
    rewrite update_mtime_eq. reflexivity.
  - rewrite update_cache_eq.
    destruct (__mtime_cache st !! f) as [v|] eqn:Hv; [|reflexivity].
    rewrite update_mtime_eq. simpl. destruct (os_stat fs f).
    + rewrite dom_insert. apply union_least; [|reflexivity].
      apply singleton_subseteq_l, elem_of_dom. eauto.
    + rewrite dom_delete. apply subseteq_difference_l. reflexivity.
Qed.

Lemma update_cache_known_paths_only_witness :
  update_cache (fs_single "a.bb" sample_stat) "a.bb" empty_cache
  = (Ok tt, empty_cache) /\
  fst (update_cache fs_empty "a.bb" (mkStatCache {["a.bb" := Stamp 1 2 3]} []))
  = Ok tt.
Proof.
  split.
  - apply (update_cache_known_paths_only (fs_single "a.bb" sample_stat)
             "a.bb" empty_cache). reflexivity.
  - destruct (update_cache_known_paths_only fs_empty "a.bb"
                (mkStatCache {["a.bb" := Stamp 1 2 3]} [])) as (_ & Hknown & _).
    rewrite Hknown; [reflexivity|]. eexists. reflexivity.
Defined.

(** X8: every operation stats at most once, and only its own path:
    [check_mtime] and [update_mtime] always do, the lookups only on a miss,
    [update_cache] only on a hit, [clear_cache] never. *)
Theorem stats_own_path_at_most_once fs op st :
  stat_calls (run_op fs op st)
  = stat_calls st ++
    match op with
    | OpLookup f | OpLookupNoerror f =>
        match __mtime_cache st !! f with Some _ => [] | None => [f] end
    | OpCheck f _ | OpRefresh f => [f]
    | OpUpdateCache f =>
        match __mtime_cache st !! f with Some _ => [f] | None => [] end
    | OpClear => []
    end.
Proof.
  destruct op as [g|g|g expected|g|g|]; simpl.
  - destruct (__mtime_cache st !! g) as [w|] eqn:Hw.
    + rewrite (cached_mtime_hit fs g st w Hw), app_nil_r. reflexivity.
    + rewrite (cached_mtime_miss fs g st Hw).
      destruct (os_stat fs g); reflexivity.
  - destruct (__mtime_cache st !! g) as [w|] eqn:Hw.
    + rewrite (cached_mtime_noerror_hit fs g st w Hw), app_nil_r. reflexivity.
    + rewrite (cached_mtime_noerror_miss fs g st Hw).
      destruct (os_stat fs g); reflexivity.
  - rewrite check_mtime_eq. reflexivity.
  - rewrite update_mtime_eq. reflexivity.
  - rewrite update_cache_eq. destruct (__mtime_cache st !! g).
    + rewrite update_mtime_eq. reflexivity.
    + rewrite app_nil_r. reflexivity.
  - rewrite app_nil_r. reflexivity.
Qed.

(** ** Dependency recorder: growth, lookups and the working directory *)

(** One call of [mark_dependency], with the cache and every variable of the
    context accounted for. *)
Lemma mark_dependency_run fs f w :
  let p := recorded_path fs f in
  let s := (p, recorded_fingerprint fs (cache w) p) in
  exists d',
    mark_dependency fs f w
    = (Ok tt, mkParse (snd (cached_mtime_noerror fs p (cache w))) d') /\
    depends_of d'
    = (if decide (s ∈ depends_of (data w)) then depends_of (data w)
       else depends_of (data w) ++ [s]) /\
    var_BBPATH d' = var_BBPATH (data w) /\
    var_base_depends d' = var_base_depends (data w) /\
    inchistory d' = inchistory (data w).
Proof.
  intros p s.
  destruct (cached_mtime_noerror_returns fs p (cache w)) as (st' & Hrun & _).
  unfold mark_dependency. fold (recorded_path fs f). fold p. unfold_py.
  simpl. rewrite Hrun. fold s. fold (depends_of (data w)). simpl.
  destruct (decide (s ∈ depends_of (data w))) as [Hin|Hnin].
  - rewrite bool_decide_eq_true_2 by exact Hin. simpl.
    eexists. split; [reflexivity|]. repeat split; reflexivity.
  - rewrite bool_decide_eq_false_2 by exact Hnin. simpl.
    eexists. split; [reflexivity|]. simpl. unfold depends_of at 1. simpl.
    split; [apply (or_empty_idem (depends_of (data w) ++ [s]))|].
    repeat split; reflexivity.
Qed.

Lemma check_dependency_run fs f w :
  check_dependency fs f w
  = (Ok (bool_decide
           ((f, recorded_fingerprint fs (cache w) f) ∈ depends_of (data w))),
     mkParse (snd (cached_mtime_noerror fs f (cache w))) (data w)).
Proof.
  destruct (cached_mtime_noerror_returns fs f (cache w)) as (st' & Hrun & _).
  unfold check_dependency. unfold_py. rewrite Hrun. reflexivity.
Qed.

Lemma recorded_path_plain fs f :
  Str.startswith "./" f = false -> recorded_path fs f = f.
Proof. unfold recorded_path. intros ->. reflexivity. Qed.

Lemma startswith_slash s :
  Str.startswith "/" s = true -> exists rest, s = String "/" rest.
Proof.
  unfold Str.startswith. intros Hpre.
  destruct s as [|a rest]; [discriminate Hpre|].
  change (String.prefix "/" (String a rest))
    with (if ascii_dec "/" a then String.prefix "" rest else false) in Hpre.
  destruct (ascii_dec "/" a) as [<-|]; [eauto|discriminate Hpre].
Qed.

Lemma recorded_path_rewritten fs f :
  Str.startswith "./" f = true ->
  OsPath.isabs (os_getcwd fs) = true ->
  recorded_path fs f ≠ f.
Proof.
  unfold recorded_path, OsPath.isabs. intros Hdot Hcwd. rewrite Hdot.
  destruct (startswith_slash _ Hcwd) as [rest ->].
  unfold Str.startswith in Hdot. destruct f as [|a f']; [discriminate Hdot|].
  change (String.prefix "./" (String a f'))
    with (if ascii_dec "." a then String.prefix "/" f' else false) in Hdot.
  destruct (ascii_dec "." a) as [<-|]; [|discriminate Hdot].
  simpl. intros Heq. inversion Heq.
Qed.

(** X9: a [mark_dependency] that returns has only appended: the dependency
    set afterwards is the old one when the pair was already in it, and
    otherwise the old one followed by the pair of the recorded path and
    the fingerprint the cache gives for it; the search path, the base set
    and the inclusion chain of the context are not touched. *)
Theorem mark_dependency_appends fs f w w' :
  mark_dependency fs f w = (Ok tt, w') ->
  let p := recorded_path fs f in
  let s := (p, recorded_fingerprint fs (cache w) p) in
  (depends_of (data w') = depends_of (data w) /\ s ∈ depends_of (data w)
   \/ depends_of (data w') = depends_of (data w) ++ [s]
      /\ s ∉ depends_of (data w)) /\
  var_BBPATH (data w') = var_BBPATH (data w) /\
  var_base_depends (data w') = var_base_depends (data w) /\
  inchistory (data w') = inchistory (data w).
Proof.
  intros Hret p s.
  destruct (mark_dependency_run fs f w)
    as (d' & Hrun & Hdeps & Hpath & Hbase & Hinc).
  rewrite Hrun in Hret. inversion Hret; subst w'. simpl.
  fold p in Hdeps. fold s in Hdeps.
  split; [|auto].
  destruct (decide (s ∈ depends_of (data w))); [left|right]; auto.
Qed.

Lemma mark_dependency_appends_witness :
  depends_of (data (snd (mark_dependency fs_empty "./a.bb" sample_context)))
  = [("/work/a.bb", Absent)].
Proof.
  destruct (mark_dependency_appends fs_empty "./a.bb" sample_context
              (snd (mark_dependency fs_empty "./a.bb" sample_context)))
    as ([[_ Hold]|[Hnew _]] & _).
  - reflexivity.
  - inversion Hold.
  - exact Hnew.
Defined.

(** X10: a run of [mark_dependency] calls that all return keeps a
    duplicate-free dependency set duplicate-free, whatever paths are
    recorded and however the filesystem changes between the calls; so a
    set built from an unset variable by such calls holds no pair twice. *)
Theorem mark_all_NoDup calls : forall w w',
  NoDup (depends_of (data w)) ->
  mark_all calls w = (Ok tt, w') ->
  NoDup (depends_of (data w')).
Proof.
  induction calls as [|[fs f] rest IH]; intros w w' Hnd Hret; simpl in Hret.
  - inversion Hret; subst w'. exact Hnd.
  - destruct (mark_dependency_spec fs f w) as (w1 & Hrun & _).
    pose proof (mark_dependency_NoDup fs f w Hnd) as Hnd1.
    rewrite Hrun in Hnd1. simpl in Hnd1.
    unfold bind in Hret. rewrite Hrun in Hret.
    exact (IH w1 w' Hnd1 Hret).
Qed.

Lemma mark_all_NoDup_witness :
  NoDup (depends_of (data (snd
    (mark_all [(fs_empty, "a.bb"); (fs_single "a.bb" sample_stat, "a.bb");
               (fs_empty, "a.bb")]
       (mkParse empty_cache (mkData None None None [])))))).
Proof.
  apply (mark_all_NoDup
           [(fs_empty, "a.bb"); (fs_single "a.bb" sample_stat, "a.bb");
            (fs_empty, "a.bb")]
           (mkParse empty_cache (mkData None None None []))).
  - apply NoDup_nil_2.
  - reflexivity.
Defined.

(** X11: for a path that does not start with [./], [check_dependency]
    right after [mark_dependency] answers true, as long as a stat of the
    path gives the same as at the recording; it leaves the context's
    variables alone. *)
Theorem check_after_mark fs fs2 f w :
  Str.startswith "./" f = false ->
  os_stat fs2 f = os_stat fs f ->
  exists w1 w2,
    mark_dependency fs f w = (Ok tt, w1) /\
    check_dependency fs2 f w1 = (Ok true, w2) /\
    data w2 = data w1.
Proof.
  intros Hplain Hstat.
  destruct (mark_dependency_spec fs f w) as (w1 & Hrun & Hdeps & _ & _ & Hfp).
  rewrite (recorded_path_plain fs f Hplain) in Hdeps, Hfp.
  exists w1. eexists. split; [exact Hrun|].
  rewrite check_dependency_run, (Hfp fs2 Hstat). split.
  - rewrite bool_decide_eq_true_2; [reflexivity|].
    rewrite Hdeps. apply recorded_present.
  - reflexivity.
Qed.

Lemma check_after_mark_witness :
  exists w1 w2,
    mark_dependency fs_empty "conf/missing.conf" sample_context = (Ok tt, w1) /\
    check_dependency fs_empty "conf/missing.conf" w1 = (Ok true, w2).
Proof.
  destruct (check_after_mark fs_empty fs_empty "conf/missing.conf"
              sample_context) as (w1 & w2 & Hmark & Hcheck & _);
    try reflexivity.
  exists w1, w2. split; [exact Hmark|exact Hcheck].
Defined.

(** X12: [mark_dependency] rewrites a leading [./] to the working
    directory, [check_dependency] does not: with an absolute working
    directory and no pair recorded under the unrewritten name,
    [check_dependency] answers false for a [./] path that was just
    recorded. *)
Theorem check_after_mark_dot_slash fs f w :
  Str.startswith "./" f = true ->
  OsPath.isabs (os_getcwd fs) = true ->
  (forall m, (f, m) ∉ depends_of (data w)) ->
  exists w1 w2,
    mark_dependency fs f w = (Ok tt, w1) /\
    (recorded_path fs f, recorded_fingerprint fs (cache w) (recorded_path fs f))
      ∈ depends_of (data w1) /\
    check_dependency fs f w1 = (Ok false, w2).
Proof.
  intros Hdot Hcwd Hfresh.
  pose proof (recorded_path_rewritten fs f Hdot Hcwd) as Hne.
  destruct (mark_dependency_spec fs f w) as (w1 & Hrun & Hdeps & _).
  exists w1. eexists. split; [exact Hrun|]. split.
  - rewrite Hdeps. apply recorded_present.
  - rewrite check_dependency_run. rewrite bool_decide_eq_false_2; [reflexivity|].
    rewrite Hdeps. intros Hin.
    destruct (decide (_ ∈ depends_of (data w))).
    + exact (Hfresh _ Hin).
    + apply elem_of_app in Hin as [Hin|Hin]; [exact (Hfresh _ Hin)|].
      apply list_elem_of_singleton in Hin. inversion Hin. congruence.
Qed.

Lemma check_after_mark_dot_slash_witness :
  exists w1 w2,
    mark_dependency (fs_single "/work/a.bb" sample_stat) "./a.bb" sample_context
    = (Ok tt, w1) /\
    ("/work/a.bb", Stamp 1700000000 42 7) ∈ depends_of (data w1) /\
    check_dependency (fs_single "/work/a.bb" sample_stat) "./a.bb" w1
    = (Ok false, w2).
Proof.
  destruct (check_after_mark_dot_slash (fs_single "/work/a.bb" sample_stat)
              "./a.bb" sample_context) as (w1 & w2 & Hmark & Hin & Hcheck).
  - reflexivity.
  - reflexivity.
  - intros m Hin. inversion Hin.
  - exists w1, w2. split; [exact Hmark|]. split; [exact Hin|exact Hcheck].
Defined.

(** X13: recording a path that does not exist stores the pair with the
    sentinel and no cache entry, so that recording it again once the file
    exists adds a second pair with the file's fingerprint: the set then
    holds both. *)
Theorem missing_then_created_both_recorded fs fs2 f w res :
  os_getcwd fs2 = os_getcwd fs ->
  __mtime_cache (cache w) !! recorded_path fs f = None ->
  os_stat fs (recorded_path fs f) = None ->
  os_stat fs2 (recorded_path fs f) = Some res ->
  exists w1 w2,
    mark_dependency fs f w = (Ok tt, w1) /\
    mark_dependency fs2 f w1 = (Ok tt, w2) /\
    (recorded_path fs f, Absent) ∈ depends_of (data w2) /\
    (recorded_path fs f, fingerprint_of res) ∈ depends_of (data w2) /\
    __mtime_cache (cache w2) !! recorded_path fs f = Some (fingerprint_of res).
Proof.
  intros Hcwd Hmiss Hgone Hnow.
  assert (Hp : recorded_path fs2 f = recorded_path fs f).
  { unfold recorded_path. rewrite Hcwd. reflexivity. }
  destruct (mark_dependency_run fs f w) as (d1 & Hrun1 & Hdeps1 & _).
  rewrite (cached_mtime_noerror_miss fs _ (cache w) Hmiss), Hgone in Hrun1.
  simpl in Hrun1.
  unfold recorded_fingerprint, current_fingerprint in Hdeps1.
  rewrite Hmiss, Hgone in Hdeps1.
  destruct (mark_dependency_run fs2 f (mkParse
              (mkStatCache (__mtime_cache (cache w))
                 (stat_calls (cache w) ++ [recorded_path fs f])) d1))
    as (d2 & Hrun2 & Hdeps2 & _).
  rewrite Hp in Hrun2, Hdeps2. simpl in Hrun2, Hdeps2.
  rewrite (cached_mtime_noerror_miss fs2 (recorded_path fs f)
             (mkStatCache (__mtime_cache (cache w))
                (stat_calls (cache w) ++ [recorded_path fs f])) Hmiss),
    Hnow in Hrun2.
  simpl in Hrun2.
  unfold recorded_fingerprint, current_fingerprint in Hdeps2. simpl in Hdeps2.
  rewrite Hmiss, Hnow in Hdeps2.
  eexists _, _. split; [exact Hrun1|]. split; [exact Hrun2|]. simpl.
  split; [|split].
  - rewrite Hdeps2. apply recorded_keeps. rewrite Hdeps1.
    apply recorded_present.
  - rewrite Hdeps2. apply recorded_present.
  - apply lookup_insert_eq.
Qed.

Lemma missing_then_created_both_recorded_witness :
  exists w1 w2,
    mark_dependency fs_empty "/a/foo.bb" sample_context = (Ok tt, w1) /\
    mark_dependency (fs_single "/a/foo.bb" sample_stat) "/a/foo.bb" w1
    = (Ok tt, w2) /\
    depends_of (data w2)
    = [("/a/foo.bb", Absent); ("/a/foo.bb", Stamp 1700000000 42 7)].
Proof.
  destruct (missing_then_created_both_recorded fs_empty
              (fs_single "/a/foo.bb" sample_stat) "/a/foo.bb" sample_context
              sample_stat) as (w1 & w2 & Hrun1 & Hrun2 & _);
    try reflexivity.
  exists w1, w2. split; [exact Hrun1|]. split; [exact Hrun2|].
  vm_compute in Hrun1. inversion Hrun1; subst w1.
  vm_compute in Hrun2. inversion Hrun2; subst w2. reflexivity.
Defined.

(** ** Path resolution *)

(** X14: whenever [resolve_file] returns a path, that path is a regular
    file; for an absolute name it is the name itself; every pair the
    context held before is still in the dependency set, and the search
    path variable is unchanged. *)
Theorem resolve_file_returns_regular_file fs fn w p w' :
  resolve_file fs fn w = (Ok p, w') ->
  os_path_isfile fs p = true /\
  (OsPath.isabs fn = true -> p = fn) /\
  (forall s, s ∈ depends_of (data w) -> s ∈ depends_of (data w')) /\
  var_BBPATH (data w') = var_BBPATH (data w).
Proof.
  unfold resolve_file, bind, getVar.
  destruct (OsPath.isabs fn) eqn:Habs; simpl.
  - destruct (mark_dependency_spec fs fn w) as (w1 & Hrun & Hdeps & Hpath & _).
    unfold bind. rewrite Hrun. unfold ret, raise.
    destruct (os_path_isfile fs fn) eqn:Hfile; simpl; intros Hret;
      inversion Hret; subst p w'.
    split; [exact Hfile|]. split; [reflexivity|].
    split; [intros s Hs; rewrite Hdeps; apply recorded_keeps, Hs|exact Hpath].
  - destruct (which fs (var_BBPATH (data w)) fn) as [newfn attempts].
    destruct (for_each_mark_dependency fs attempts w)
      as (w1 & Hrun & Hpath & Hmono & _).
    unfold bind. rewrite Hrun. unfold ret, raise.
    destruct (String.eqb newfn "") eqn:Hempty; simpl;
      [intros Hret; discriminate Hret|].
    destruct (os_path_isfile fs newfn) eqn:Hfile; simpl; intros Hret;
      inversion Hret; subst p w'.
    split; [exact Hfile|]. split; [discriminate|].
    split; [exact Hmono|exact Hpath].
Qed.

(** X15: an absolute path that is a regular file is returned as it is,
    whatever the search path says, and is recorded with the fingerprint
    the cache gives for it. *)
Theorem resolve_file_absolute_file fs fn w :
  OsPath.isabs fn = true ->
  os_path_isfile fs fn = true ->
  exists w',
    resolve_file fs fn w = (Ok fn, w') /\
    (fn, recorded_fingerprint fs (cache w) fn) ∈ depends_of (data w').
Proof.
  intros Habs Hfile.
  assert (Hplain : Str.startswith "./" fn = false).
  { destruct (startswith_slash fn Habs) as [rest ->]. reflexivity. }
  destruct (mark_dependency_spec fs fn w) as (w' & Hrun & Hdeps & _).
  rewrite (recorded_path_plain fs fn Hplain) in Hdeps.
  exists w'. split.
  - unfold resolve_file, bind. rewrite Habs. simpl. unfold bind.
    rewrite Hrun. unfold ret. rewrite Hfile. reflexivity.
  - rewrite Hdeps. apply recorded_present.
Qed.

Lemma resolve_file_absolute_file_witness :
  exists w',
    resolve_file (fs_single "/b/foo.bb" sample_stat) "/b/foo.bb" sample_context
    = (Ok "/b/foo.bb", w') /\
    ("/b/foo.bb", Stamp 1700000000 42 7) ∈ depends_of (data w').
Proof.
  destruct (resolve_file_absolute_file (fs_single "/b/foo.bb" sample_stat)
              "/b/foo.bb" sample_context) as (w' & Hrun & Hin);
    try reflexivity.
  exists w'. split; [exact Hrun|exact Hin].
Defined.

(** ** Handler registry: [supports] and its agreement with [handle] *)

Section RegistryFacts.

Variable R : Type.
Variable fn : string.

(** The loop of [supports]: it asks predicates until one accepts. *)
Lemma supports_from_run (hs : list (Handler R)) : forall k d calls,
  exists n,
    (n <= length hs)%nat /\
    supports_from R k hs fn (mkRun d calls)
    = (Ok (if existsb (fun h => h_supports h fn d) hs then 1 else 0),
       mkRun d (calls ++ (CallSupports <$> seq k n))).
Proof.
  induction hs as [|h rest IH]; intros k d calls; simpl.
  - exists 0%nat. split; [lia|]. simpl. rewrite app_nil_r. reflexivity.
  - unfold bind at 1. unfold call_supports, log, bind. simpl.
    destruct (h_supports h fn d) eqn:Hh; simpl.
    + exists 1%nat. split; [lia|]. reflexivity.
    + destruct (IH (S k) d (calls ++ [CallSupports k])) as (n & Hn & Hrun).
      exists (S n). split; [lia|]. rewrite Hrun, <- app_assoc. reflexivity.
Qed.

Lemma first_match_exists (P : Handler R -> bool) (hs : list (Handler R)) :
  existsb P hs = true ->
  exists i h,
    hs !! i = Some h /\ P h = true /\
    forall j h', (j < i)%nat -> hs !! j = Some h' -> P h' = false.
Proof.
  induction hs as [|h0 rest IH]; simpl; intros Hex; [discriminate|].
  destruct (P h0) eqn:Hh0.
  - exists 0%nat, h0. split; [reflexivity|]. split; [exact Hh0|].
    intros j h' Hj. lia.
  - destruct (IH Hex) as (i & h & Hi & Hh & Hbefore).
    exists (S i), h. split; [exact Hi|]. split; [exact Hh|].
    intros [|j] h' Hj Hlook; simpl in Hlook.
    + inversion Hlook; subst. exact Hh0.
    + apply (Hbefore j h'); [lia|exact Hlook].
Qed.

Lemma existsb_false_all (P : Handler R -> bool) (hs : list (Handler R)) :
  existsb P hs = false -> forall h, h ∈ hs -> P h = false.
Proof.
  induction hs as [|h0 rest IH]; simpl; intros Hex h Hh; [inversion Hh|].
  apply orb_false_iff in Hex as [Hh0 Hrest].
  apply elem_of_cons in Hh as [->|Hh]; [exact Hh0|apply IH; assumption].
Qed.

End RegistryFacts.

(** X16: [supports] returns 1 when some registered handler accepts the path
    and 0 when none does; it only asks predicates, in registry order from
    the first, and leaves the context as it found it. *)
Theorem supports_iff_some_handler {R} (handlers : list (Handler R)) fn (w : Run) :
  exists z w' n,
    supports handlers fn w = (Ok z, w') /\
    run_data w' = run_data w /\
    (n <= length handlers)%nat /\
    run_calls w' = run_calls w ++ (CallSupports <$> seq 0 n) /\
    (z = 1 /\ (exists h, h ∈ handlers /\ h_supports h fn (run_data w) = true)
     \/ z = 0 /\ forall h, h ∈ handlers -> h_supports h fn (run_data w) = false).
Proof.
  destruct w as [d calls]. unfold supports.
  destruct (supports_from_run R fn handlers 0 d calls) as (n & Hn & Hrun).
  eexists _, _, n. split; [exact Hrun|]. simpl.
  split; [reflexivity|]. split; [exact Hn|]. split; [reflexivity|].
  destruct (existsb (fun h => h_supports h fn d) handlers) eqn:Hex.
  - left. split; [reflexivity|].
    apply existsb_exists in Hex as (h & Hin & Hh). exists h.
    split; [apply list_elem_of_In, Hin|exact Hh].
  - right. split; [reflexivity|].
    apply (existsb_false_all R (fun h => h_supports h fn d)), Hex.
Qed.

(** X17: [handle] and [supports] agree: where [supports] returns 0,
    [handle] raises the parse error for an unsupported file and leaves the
    context alone; where [supports] returns 1, [handle] gives what the
    entry point of some accepting handler gives. *)
Theorem handle_agrees_with_supports {R} (handlers : list (Handler R)) fn
    include baseconfig (w : Run) :
  let d := run_data w in
  (fst (supports handlers fn w) = Ok 0 ->
   exists w',
     handle handlers fn include baseconfig w
     = (Raise (ParseError "not a BitBake file" fn 0), w') /\
     run_data w' = d) /\
  (fst (supports handlers fn w) = Ok 1 ->
   exists i h,
     handlers !! i = Some h /\
     h_supports h fn d = true /\
     fst (handle handlers fn include baseconfig w)
     = fst (h_handle h fn (set_inchistory d (fn :: inchistory d))
              include baseconfig)).
Proof.
  destruct w as [d calls]. simpl. unfold supports, handle.
  destruct (supports_from_run R fn handlers 0 d calls) as (n & _ & Hrun).
  rewrite Hrun. simpl.
  destruct (existsb (fun h => h_supports h fn d) handlers) eqn:Hex; split;
    intros Hz; try discriminate Hz.
  - destruct (first_match_exists R (fun h => h_supports h fn d) handlers Hex)
      as (i & h & Hi & Hh & Hbefore).
    exists i, h. split; [exact Hi|]. split; [exact Hh|].
    rewrite (handle_from_first_match R fn include baseconfig handlers
               0 d calls i h Hi Hh Hbefore). reflexivity.
  - eexists. split.
    + apply handle_from_no_match.
      apply (existsb_false_all R (fun h => h_supports h fn d)), Hex.
    + reflexivity.
Qed.

Lemma handle_agrees_with_supports_witness :
  (exists w',
     handle ([] : list (Handler string)) "x.txt" 0 false
       (mkRun (mkData None None None []) [])
     = (Raise (ParseError "not a BitBake file" "x.txt" 0), w')) /\
  (exists i h,
     [handler_B; handler_A] !! i = Some h /\
     fst (handle [handler_B; handler_A] "x.bb" 0 false
            (mkRun (mkData None None None []) []))
     = fst (h_handle h "x.bb" (mkData None None None ["x.bb"]) 0 false)).
Proof.
  split.
  - destruct (handle_agrees_with_supports ([] : list (Handler string)) "x.txt"
                0 false (mkRun (mkData None None None []) [])) as [Hnone _].
    destruct Hnone as (w' & Hrun & _); [reflexivity|].
    exists w'. exact Hrun.
  - destruct (handle_agrees_with_supports [handler_B; handler_A] "x.bb"
                0 false (mkRun (mkData None None None []) [])) as [_ Hsome].
    destruct Hsome as (i & h & Hi & _ & Hres); [reflexivity|].
    exists i, h. split; [exact Hi|exact Hres].
Defined.

(** ** Filename decomposition: padding and segments *)

Lemma pad_loop_replicate exp : forall tmplist,
  pad_loop exp tmplist = tmplist ++ replicate exp None.
Proof.
  induction exp as [|exp IH]; intros tmplist; simpl.
  - rewrite app_nil_r. reflexivity.
  - rewrite IH, <- app_assoc. reflexivity.
Qed.

Lemma split_nonempty c s : Str.split c s ≠ [].
Proof.
  destruct s as [|a s']; simpl; [discriminate|].
  destruct (Ascii.eqb a c); [discriminate|].
  destruct (Str.split c s'); discriminate.
Qed.

Lemma join_cons_char sep a w ws :
  Str.join sep (String a w :: ws) = String a (Str.join sep (w :: ws)).
Proof. destruct ws; reflexivity. Qed.

(** Joining what [split] gives with the separator gives the string back. *)
Lemma join_split c s : Str.join (String c EmptyString) (Str.split c s) = s.
Proof.
  induction s as [|a s' IH]; [reflexivity|]. simpl.
  destruct (Ascii.eqb a c) eqn:Hac.
  - apply Ascii.eqb_eq in Hac. subst a.
    destruct (Str.split c s') as [|w ws] eqn:Hsplit.
    + exfalso. exact (split_nonempty c s' Hsplit).
    + change (Str.join (String c "") ("" :: w :: ws))
        with (String c (Str.join (String c "") (w :: ws))).
      rewrite IH. reflexivity.
  - destruct (Str.split c s') as [|w ws] eqn:Hsplit.
    + exfalso. exact (split_nonempty c s' Hsplit).
    + rewrite join_cons_char, IH. reflexivity.
Qed.

Lemma split_parts_free c s :
  forall part, part ∈ Str.split c s -> occurs c part = false.
Proof.
  induction s as [|a s' IH]; simpl; intros part Hin.
  - apply list_elem_of_singleton in Hin. subst. reflexivity.
  - destruct (Ascii.eqb a c) eqn:Hac.
    + apply elem_of_cons in Hin as [->|Hin]; [reflexivity|apply IH, Hin].
    + destruct (Str.split c s') as [|w ws] eqn:Hsplit.
      * apply list_elem_of_singleton in Hin. subst. simpl. rewrite Hac.
        reflexivity.
      * apply elem_of_cons in Hin as [->|Hin].
        -- simpl. rewrite Hac. apply IH. left.
        -- apply IH. right. exact Hin.
Qed.

(** X18: for a recipe name with at most three segments that the cache does
    not know, [vars_from_file] returns the segments followed by as many
    [None] as it takes to make three entries, stores exactly that list in
    the cache, and returns it again on the next call without changing the
    cache. *)
Theorem vars_from_file_pads_to_three mypkg (c : PkgsplitCache) :
  recipe_extension mypkg = true ->
  c !! mypkg = None ->
  (length (segments mypkg) <= 3)%nat ->
  exists parts c',
    vars_from_file mypkg c = (Ok parts, c') /\
    parts = (Some <$> segments mypkg)
              ++ replicate (3 - length (segments mypkg)) None /\
    length parts = 3%nat /\
    c' !! mypkg = Some parts /\
    vars_from_file mypkg c' = (Ok parts, c').
Proof.
  intros Hext Hmiss Hlen.
  assert (Hrun : vars_from_file mypkg c
            = (Ok ((Some <$> segments mypkg)
                     ++ replicate (3 - length (segments mypkg)) None),
               <[mypkg := (Some <$> segments mypkg)
                            ++ replicate (3 - length (segments mypkg)) None]>
                 (<[mypkg := Some <$> segments mypkg]> c))).
  { unfold vars_from_file.
    rewrite (recipe_extension_nonempty mypkg Hext), Hext, Hmiss. simpl.
    rewrite length_fmap.
    destruct (3 <? length (segments mypkg))%nat eqn:Hcmp.
    - apply Nat.ltb_lt in Hcmp. lia.
    - rewrite pad_loop_replicate. reflexivity. }
  eexists _, _. split; [exact Hrun|]. split; [reflexivity|].
  split; [|split].
  - rewrite length_app, length_fmap, length_replicate. lia.
  - apply lookup_insert_eq.
  - apply vars_from_file_cached; [exact Hext|apply lookup_insert_eq].
Qed.

Lemma vars_from_file_pads_to_three_witness :
  exists c',
    vars_from_file "/meta/recipes/busybox_1.36.bb" ∅
    = (Ok [Some "busybox"; Some "1.36"; None], c') /\
    vars_from_file "/meta/recipes/busybox_1.36.bb" c'
    = (Ok [Some "busybox"; Some "1.36"; None], c').
Proof.
  destruct (vars_from_file_pads_to_three "/meta/recipes/busybox_1.36.bb" ∅)
    as (parts & c' & Hrun & Hparts & _ & _ & Hagain).
  - reflexivity.
  - reflexivity.
  - vm_compute. lia.
  - exists c'. vm_compute in Hparts. subst parts.
    split; [exact Hrun|exact Hagain].
Defined.

(** X19: the segments a file name is cut into contain no underscore, and
    joined with underscores they give back the base name without its
    extension: nothing of the name is lost or reordered. *)
Theorem segments_rejoin mypkg :
  Str.join "_" (segments mypkg)
  = fst (OsPath.splitext (OsPath.basename mypkg)) /\
  forall part, part ∈ segments mypkg -> occurs "_" part = false.
Proof.
  unfold segments. split.
  - apply (join_split "_").
  - apply split_parts_free.
Qed.

(** ** Annotations: how applications combine *)

Lemma vardepsexclude_attr varnames f :
  bb_vardepsexclude (vardepsexclude varnames f)
  = Some (default ∅ (bb_vardepsexclude f) ∪ list_to_set varnames).
Proof.
  unfold vardepsexclude. destruct (bb_vardepsexclude f) as [s|] eqn:Hattr; simpl.
  - rewrite Hattr. reflexivity.
  - reflexivity.
Qed.

Lemma vardeps_other_fields varnames f :
  fn_name (vardeps varnames f) = fn_name f /\
  bb_vardepsexclude (vardeps varnames f) = bb_vardepsexclude f.
Proof. unfold vardeps. destruct (bb_vardeps f); split; reflexivity. Qed.

Lemma vardepsexclude_other_fields varnames f :
  fn_name (vardepsexclude varnames f) = fn_name f /\
  bb_vardeps (vardepsexclude varnames f) = bb_vardeps f.
Proof. unfold vardepsexclude. destruct (bb_vardepsexclude f); split; reflexivity. Qed.

Lemma PyFunction_eq f g :
  fn_name f = fn_name g ->
  bb_vardeps f = bb_vardeps g ->
  bb_vardepsexclude f = bb_vardepsexclude g ->
  f = g.
Proof. destruct f, g. simpl. intros -> -> ->. reflexivity. Qed.

(** X20: applications of [vardeps] combine like set union: two in a row
    amount to one with both lists of names, their order does not matter,
    and applying the same names again changes nothing. *)
Theorem vardeps_compose names1 names2 f :
  vardeps names2 (vardeps names1 f) = vardeps (names1 ++ names2) f /\
  vardeps names2 (vardeps names1 f) = vardeps names1 (vardeps names2 f) /\
  vardeps names1 (vardeps names1 f) = vardeps names1 f.
Proof.
  split; [|split]; apply PyFunction_eq;
    rewrite ?(proj1 (vardeps_other_fields _ _)),
            ?(proj2 (vardeps_other_fields _ _)), ?vardeps_attr;
    try reflexivity; simpl; f_equal; apply set_eq; intros x; set_unfold; tauto.
Qed.

(** X21: the two decorators keep out of each other's way: [vardeps] leaves
    the exclusion attribute and the name of the function as they are,
    [vardepsexclude] leaves the dependency attribute and the name as they
    are, and the two can be applied in either order. *)
Theorem vardeps_vardepsexclude_independent names excl f :
  bb_vardepsexclude (vardeps names f) = bb_vardepsexclude f /\
  bb_vardeps (vardepsexclude excl f) = bb_vardeps f /\
  fn_name (vardeps names f) = fn_name f /\
  fn_name (vardepsexclude excl f) = fn_name f /\
  vardeps names (vardepsexclude excl f) = vardepsexclude excl (vardeps names f).
Proof.
  split; [apply vardeps_other_fields|].
  split; [apply vardepsexclude_other_fields|].
  split; [apply vardeps_other_fields|].
  split; [apply vardepsexclude_other_fields|].
  apply PyFunction_eq.
  - rewrite (proj1 (vardeps_other_fields _ _)),
      !(proj1 (vardepsexclude_other_fields _ _)),
      (proj1 (vardeps_other_fields _ _)). reflexivity.
  - rewrite vardeps_attr, !(proj2 (vardepsexclude_other_fields _ _)),
      vardeps_attr. reflexivity.
  - rewrite (proj2 (vardeps_other_fields _ _)), !vardepsexclude_attr,
      (proj2 (vardeps_other_fields _ _)). reflexivity.
Qed.

(** X22: after either decorator its attribute is there, and a name is in
    it exactly when it was in it before or is among the names given: no
    name is ever dropped, and nothing else is added. *)
Theorem annotation_membership names f x :
  (exists s, bb_vardeps (vardeps names f) = Some s /\
     (x ∈ s <-> x ∈ default ∅ (bb_vardeps f) \/ x ∈ names)) /\
  (exists s, bb_vardepsexclude (vardepsexclude names f) = Some s /\
     (x ∈ s <-> x ∈ default ∅ (bb_vardepsexclude f) \/ x ∈ names)).
Proof.
  split; eexists; (split; [first [apply vardeps_attr|apply vardepsexclude_attr]|]);
    rewrite elem_of_union, elem_of_list_to_set; reflexivity.
Qed.

(** ** [get_file_depends] *)








(** ** The S3 fetcher: [download] and [checkstatus] *)

Lemma boto_results_true s3 ud :
  S3._boto_download s3 ud ≠ Ok false /\ S3._boto_checkstatus s3 ud ≠ Ok false.
Proof.
  unfold S3._boto_download, S3._boto_checkstatus. split.
  - destruct (S3.download_file s3 _ _ _) as [u|code|what]; try discriminate.
    destruct (S3.eq_str code "404"); [discriminate|].
    destruct (S3.eq_int code 403); discriminate.
  - destruct (S3.head_object s3 _ _) as [u|code|what]; try discriminate.
    destruct (S3.eq_str code "404"); [discriminate|].
    destruct (S3.eq_int code 403); discriminate.
Qed.

(** X24: neither [download] nor [checkstatus] ever returns false, with or
    without a boto3 client: each returns true or raises. *)
Theorem fetch_never_returns_false sv _s3 basecmd ud w :
  fst (S3Fetch.download sv _s3 basecmd ud w) ≠ Ok false /\
  fst (S3Fetch.checkstatus sv _s3 basecmd ud w) ≠ Ok false.
Proof.
  unfold S3Fetch.download, S3Fetch.checkstatus, bind, S3Fetch.network_check,
    S3Fetch.run, S3Fetch.path_exists, S3Fetch.getsize, S3Fetch.remove,
    raise, ret.
  split.
  - destruct (S3Fetch.check_network_access sv _ _); [discriminate|].
    destruct _s3 as [s3|]; simpl; [apply boto_results_true|].
    destruct (S3Fetch.runfetchcmd sv _ _) as [[out|e] fl]; simpl;
      [|discriminate].
    destruct (fl !! S3.localpath ud) as [n|] eqn:Hfile; simpl;
      [|discriminate].
    rewrite Hfile. destruct (n =? 0); simpl; [|discriminate].
    rewrite Hfile. discriminate.
  - destruct (S3Fetch.check_network_access sv _ _); [discriminate|].
    destruct _s3 as [s3|]; simpl; [apply boto_results_true|].
    destruct (S3Fetch.runfetchcmd sv _ _) as [[out|e] fl]; simpl;
      [|discriminate].
    destruct (String.eqb out ""); discriminate.
Qed.

(** X25: the network check comes first: when [check_network_access]
    refuses the command, [download] and [checkstatus] raise what it raised,
    no command is run, no boto3 call decides anything and the local files
    are untouched. *)
Theorem refused_network_stops_fetch sv _s3 basecmd ud w e :
  (S3Fetch.check_network_access sv
     (basecmd +:+ " cp s3://" +:+ S3.host ud +:+ S3.path ud
      +:+ " " +:+ S3.localpath ud) (S3.url ud) = Some e ->
   S3Fetch.download sv _s3 basecmd ud w = (Raise e, w)) /\
  (S3Fetch.check_network_access sv
     (basecmd +:+ " ls s3://" +:+ S3.host ud +:+ S3.path ud) (S3.url ud)
   = Some e ->
   S3Fetch.checkstatus sv _s3 basecmd ud w = (Raise e, w)).
Proof.
  unfold S3Fetch.download, S3Fetch.checkstatus, bind, S3Fetch.network_check.
  split; intros ->; reflexivity.
Qed.

Lemma refused_network_stops_fetch_witness :
  S3Fetch.download
    (S3Fetch.mkServices (fun _ _ => Some (OtherException "NetworkAccess"))
       (fun _ fl => (Ok "", fl)))
    (Some s3_forbidden) "aws s3" sample_url (S3Fetch.mkLocal ∅ [])
  = (Raise (OtherException "NetworkAccess"), S3Fetch.mkLocal ∅ []).
Proof.
  apply (refused_network_stops_fetch
           (S3Fetch.mkServices (fun _ _ => Some (OtherException "NetworkAccess"))
              (fun _ fl => (Ok "", fl)))
           (Some s3_forbidden) "aws s3" sample_url (S3Fetch.mkLocal ∅ [])).
  reflexivity.
Defined.

(** X26: with a boto3 client [download] and [checkstatus] never run the
    command line tool, and once the network check has passed their
    outcome is that of the boto3 call alone: [download] does not look at
    the local file. *)
Theorem boto_path_runs_no_command sv s3 basecmd ud w :
  S3Fetch.commands (snd (S3Fetch.download sv (Some s3) basecmd ud w))
  = S3Fetch.commands w /\
  S3Fetch.commands (snd (S3Fetch.checkstatus sv (Some s3) basecmd ud w))
  = S3Fetch.commands w /\
  ((forall cmd, S3Fetch.check_network_access sv cmd (S3.url ud) = None) ->
   fst (S3Fetch.download sv (Some s3) basecmd ud w) = S3._boto_download s3 ud /\
   fst (S3Fetch.checkstatus sv (Some s3) basecmd ud w)
   = S3._boto_checkstatus s3 ud).
Proof.
  unfold S3Fetch.download, S3Fetch.checkstatus, bind, S3Fetch.network_check.
  split; [|split].
  - destruct (S3Fetch.check_network_access sv _ _); [reflexivity|]. simpl.
    destruct (S3._boto_download s3 ud); reflexivity.
  - destruct (S3Fetch.check_network_access sv _ _); [reflexivity|]. simpl.
    destruct (S3._boto_checkstatus s3 ud); reflexivity.
  - intros Hok. rewrite !Hok. simpl.
    destruct (S3._boto_download s3 ud), (S3._boto_checkstatus s3 ud);
      split; reflexivity.
Qed.

Lemma boto_path_runs_no_command_witness :
  fst (S3Fetch.download (cli_services "done" None)
         (Some (S3.mkClient (fun _ _ => S3.Returns (Some 10))
                  (fun _ _ _ => S3.Returns tt)))
         "aws s3" sample_url (S3Fetch.mkLocal ∅ []))
  = Ok true /\
  fst (S3Fetch.checkstatus (cli_services "" None) (Some s3_forbidden)
         "aws s3" sample_url (S3Fetch.mkLocal ∅ []))
  = S3._boto_checkstatus s3_forbidden sample_url.
Proof.
  split.
  - destruct (boto_path_runs_no_command (cli_services "done" None)
                (S3.mkClient (fun _ _ => S3.Returns (Some 10))
                   (fun _ _ _ => S3.Returns tt))
                "aws s3" sample_url (S3Fetch.mkLocal ∅ []))
      as (_ & _ & Hres).
    destruct Hres as [Hres _]; [reflexivity|]. rewrite Hres. reflexivity.
  - destruct (boto_path_runs_no_command (cli_services "" None) s3_forbidden
                "aws s3" sample_url (S3Fetch.mkLocal ∅ []))
      as (_ & _ & Hres).
    destruct Hres as [_ Hres]; [reflexivity|]. exact Hres.
Defined.

(** X27: without a boto3 client, once the network check has passed and the
    [aws s3 cp] command has returned, [download] returns true exactly when
    the command left a local file of non-zero size, and that file is then
    still there; a file of size zero is removed before the error is
    raised; in every other case the files are as the command left them.
    The command is run once.  When the command itself raises, so does
    [download]. *)
Theorem cli_download_outcome sv basecmd ud w :
  let cmd := basecmd +:+ " cp s3://" +:+ S3.host ud +:+ S3.path ud
             +:+ " " +:+ S3.localpath ud in
  let lp := S3.localpath ud in
  S3Fetch.check_network_access sv cmd (S3.url ud) = None ->
  (forall out fl,
     S3Fetch.runfetchcmd sv cmd (S3Fetch.files w) = (Ok out, fl) ->
     exists r w',
       S3Fetch.download sv None basecmd ud w = (r, w') /\
       S3Fetch.commands w' = S3Fetch.commands w ++ [cmd] /\
       (r = Ok true <-> exists n, fl !! lp = Some n /\ n ≠ 0) /\
       (r = Ok true -> exists n, S3Fetch.files w' !! lp = Some n /\ n ≠ 0) /\
       (r ≠ Ok true -> exists msg, r = Raise (FetchError msg)) /\
       (fl !! lp = Some 0 -> S3Fetch.files w' = delete lp fl) /\
       (fl !! lp ≠ Some 0 -> S3Fetch.files w' = fl)) /\
  (forall e fl,
     S3Fetch.runfetchcmd sv cmd (S3Fetch.files w) = (Raise e, fl) ->
     S3Fetch.download sv None basecmd ud w
     = (Raise e, S3Fetch.mkLocal fl (S3Fetch.commands w ++ [cmd]))).
Proof.
  intros cmd lp Hnet.
  unfold S3Fetch.download, bind, S3Fetch.network_check, S3Fetch.run,
    S3Fetch.path_exists, S3Fetch.getsize, S3Fetch.remove, raise, ret.
  fold cmd. fold lp. rewrite Hnet. split.
  - intros out fl Hcmd. rewrite Hcmd. simpl.
    destruct (fl !! lp) as [n|] eqn:Hfile; simpl.
    + rewrite Hfile. destruct (n =? 0) eqn:Hn; simpl.
      * apply Z.eqb_eq in Hn. subst n. rewrite Hfile.
        eexists _, _. split; [reflexivity|]. simpl.
        split; [reflexivity|]. split.
        { split; [discriminate|]. intros (n & Hsome & Hne). congruence. }
        split; [discriminate|]. split; [eauto|].
        split; [reflexivity|]. congruence.
      * apply Z.eqb_neq in Hn.
        eexists _, _. split; [reflexivity|]. simpl.
        split; [reflexivity|]. split; [split; eauto|].
        split; [eauto|]. split; [congruence|].
        split; [intros Hzero; congruence|reflexivity].
    + eexists _, _. split; [reflexivity|]. simpl.
      split; [reflexivity|]. split.
      { split; [discriminate|]. intros (n & Hsome & _). discriminate. }
      split; [discriminate|]. split; [eauto|].
      split; [discriminate|reflexivity].
  - intros e fl Hcmd. rewrite Hcmd. reflexivity.
Qed.

Lemma cli_download_outcome_witness :
  fst (S3Fetch.download (cli_services "done" (Some 10)) None "aws s3"
         sample_url (S3Fetch.mkLocal ∅ [])) = Ok true /\
  S3Fetch.files
    (snd (S3Fetch.download (cli_services "done" (Some 0)) None "aws s3"
            sample_url (S3Fetch.mkLocal ∅ []))) !! "/downloads/file.tar.gz"
  = None.
Proof.
  split.
  - destruct (cli_download_outcome (cli_services "done" (Some 10)) "aws s3"
                sample_url (S3Fetch.mkLocal ∅ [])) as [Hok _]; [reflexivity|].
    destruct (Hok "done" {["/downloads/file.tar.gz" := 10]})
      as (r & w' & Hrun & _ & Hiff & _); [reflexivity|].
    rewrite Hrun. simpl. apply Hiff. exists 10. split; [reflexivity|lia].
  - destruct (cli_download_outcome (cli_services "done" (Some 0)) "aws s3"
                sample_url (S3Fetch.mkLocal ∅ [])) as [Hok _]; [reflexivity|].
    destruct (Hok "done" {["/downloads/file.tar.gz" := 0]})
      as (r & w' & Hrun & _ & _ & _ & _ & Hzero & _); [reflexivity|].
    rewrite Hrun. simpl. rewrite Hzero by reflexivity.
    apply lookup_delete_eq.
Defined.

(** X28: without a boto3 client, once the network check has passed,
    [checkstatus] returns true exactly when the [aws s3 ls] command
    returned some output; on empty output it raises a fetch error, and
    when the command raises it raises the same.  The command is run once
    and whatever it did to the local files stays. *)
Theorem cli_checkstatus_outcome sv basecmd ud w r0 fl :
  let cmd := basecmd +:+ " ls s3://" +:+ S3.host ud +:+ S3.path ud in
  S3Fetch.check_network_access sv cmd (S3.url ud) = None ->
  S3Fetch.runfetchcmd sv cmd (S3Fetch.files w) = (r0, fl) ->
  exists r,
    S3Fetch.checkstatus sv None basecmd ud w
    = (r, S3Fetch.mkLocal fl (S3Fetch.commands w ++ [cmd])) /\
    (r = Ok true <-> exists out, r0 = Ok out /\ out ≠ EmptyString) /\
    (r0 = Ok EmptyString ->
     r = Raise (FetchError ("The aws ls command for s3://" +:+ S3.host ud
                            +:+ S3.path ud +:+ " gave empty output"))) /\
    (forall e, r0 = Raise e -> r = Raise e).
Proof.
  intros cmd Hnet Hcmd.
  unfold S3Fetch.checkstatus, bind, S3Fetch.network_check, S3Fetch.run,
    raise, ret.
  fold cmd. rewrite Hnet, Hcmd. destruct r0 as [out|e]; simpl.
  - destruct (String.eqb out "") eqn:Hout.
    + apply String.eqb_eq in Hout. subst out.
      eexists. split; [reflexivity|]. split.
      { split; [discriminate|]. intros (out & Heq & Hne). congruence. }
      split; [reflexivity|]. discriminate.
    + apply String.eqb_neq in Hout.
      eexists. split; [reflexivity|]. split; [split; eauto|].
      split; [congruence|discriminate].
  - eexists. split; [reflexivity|]. split.
    { split; [discriminate|]. intros (out & Heq & _). discriminate. }
    split; [discriminate|]. intros e' Heq. inversion Heq. reflexivity.
Qed.

Lemma cli_checkstatus_outcome_witness :
  fst (S3Fetch.checkstatus (cli_services "2024-01-01 10 file.tar.gz" None) None
         "aws s3" sample_url (S3Fetch.mkLocal ∅ [])) = Ok true /\
  fst (S3Fetch.checkstatus (cli_services "" None) None
         "aws s3" sample_url (S3Fetch.mkLocal ∅ []))
  = Raise (FetchError
             "The aws ls command for s3://bucket/dir/file.tar.gz gave empty output").
Proof.
  split.
  - destruct (cli_checkstatus_outcome
                (cli_services "2024-01-01 10 file.tar.gz" None) "aws s3"
                sample_url (S3Fetch.mkLocal ∅ [])
                (Ok "2024-01-01 10 file.tar.gz") ∅)
      as (r & Hrun & Hiff & _); [reflexivity|reflexivity|].
    rewrite Hrun. simpl. apply Hiff. eexists. split; [reflexivity|discriminate].
  - destruct (cli_checkstatus_outcome (cli_services "" None) "aws s3"
                sample_url (S3Fetch.mkLocal ∅ []) (Ok "") ∅)
      as (r & Hrun & _ & Hempty & _); [reflexivity|reflexivity|].
    rewrite Hrun. simpl. apply Hempty. reflexivity.
Defined.

(** X29: a [ClientError] of the boto3 client never escapes
    [_boto_checkstatus] or [_boto_download], whatever [head_object] did
    before the download: it is turned into a [FetchError], and that is the
    not-found error exactly when the error code is the string 404. *)
Theorem client_error_becomes_fetch_error s3 ud code :
  (S3.head_object s3 (S3.host ud) (Str.lstrip "/" (S3.path ud))
   = S3.ClientError code ->
   (exists msg, S3._boto_checkstatus s3 ud = Raise (FetchError msg)) /\
   (S3._boto_checkstatus s3 ud = Raise (S3.not_found_error ud)
    <-> code = PStr "404")) /\
  (S3.download_file s3 (S3.host ud) (Str.lstrip "/" (S3.path ud))
     (S3.localpath ud) = S3.ClientError code ->
   (exists msg, S3._boto_download s3 ud = Raise (FetchError msg)) /\
   (S3._boto_download s3 ud = Raise (S3.not_found_error ud)
    <-> code = PStr "404")).
Proof.
  unfold S3._boto_checkstatus, S3._boto_download, S3.not_found_error.
  split; intros ->.
  - destruct code as [s|n]; simpl.
    + destruct (String.eqb s "404") eqn:Hs; simpl.
      * apply String.eqb_eq in Hs. subst s. split; [eauto|]. split; reflexivity.
      * apply String.eqb_neq in Hs. split; [eauto|]. split.
        -- intros H. inversion H.
        -- intros H. inversion H. congruence.
    + destruct (n =? 403); simpl; (split; [eauto|]);
        (split; [intros H; inversion H|discriminate]).
  - destruct code as [s|n]; simpl.
    + destruct (String.eqb s "404") eqn:Hs; simpl.
      * apply String.eqb_eq in Hs. subst s. split; [eauto|]. split; reflexivity.
      * apply String.eqb_neq in Hs. split; [eauto|]. split.
        -- intros H. inversion H.
        -- intros H. inversion H. congruence.
    + destruct (n =? 403); simpl; (split; [eauto|]);
        (split; [intros H; inversion H|discriminate]).
Qed.

Lemma client_error_becomes_fetch_error_witness :
  S3._boto_checkstatus
    (S3.mkClient (fun _ _ => S3.ClientError (PStr "404"))
       (fun _ _ _ => S3.Returns tt)) sample_url
  = Raise (S3.not_found_error sample_url).
Proof.
  destruct (client_error_becomes_fetch_error
              (S3.mkClient (fun _ _ => S3.ClientError (PStr "404"))
                 (fun _ _ _ => S3.Returns tt)) sample_url (PStr "404"))
    as [Hcheck _].
  destruct Hcheck as [_ Hiff]; [reflexivity|].
  apply Hiff. reflexivity.
Defined.

(** ** Further instances *)

Lemma resolve_file_returns_regular_file_witness :
  fst (resolve_file (fs_single "/b/foo.bb" sample_stat) "foo.bb" sample_context)
  = Ok "/b/foo.bb" /\
  os_path_isfile (fs_single "/b/foo.bb" sample_stat) "/b/foo.bb" = true.
Proof.
  split; [reflexivity|].
  apply (resolve_file_returns_regular_file
           (fs_single "/b/foo.bb" sample_stat) "foo.bb" sample_context
           "/b/foo.bb"
           (snd (resolve_file (fs_single "/b/foo.bb" sample_stat) "foo.bb"
                   sample_context))).
  reflexivity.
Defined.

Lemma supports_iff_some_handler_witness :
  exists w',
    supports [handler_A; handler_B] "recipe.bb"
      (mkRun (mkData None None None []) [])
    = (Ok 1, w') /\
    run_data w' = mkData None None None [].
Proof.
  destruct (supports_iff_some_handler [handler_A; handler_B] "recipe.bb"
              (mkRun (mkData None None None []) []))
    as (z & w' & n & Hrun & Hdata & _ & _ & [[Hz _]|[_ Hnone]]).
  - subst z. exists w'. split; [exact Hrun|exact Hdata].
  - specialize (Hnone handler_A). simpl in Hnone.
    assert (Hin : handler_A ∈ [handler_A; handler_B]) by left.
    specialize (Hnone Hin). discriminate Hnone.
Defined.

Lemma segments_rejoin_witness :
  Str.join "_" (segments "/meta/foo_1.0_r3.bb") = "foo_1.0_r3" /\
  occurs "_" "1.0" = false.
Proof.
  destruct (segments_rejoin "/meta/foo_1.0_r3.bb") as [Hjoin Hfree].
  split.
  - rewrite Hjoin. reflexivity.
  - apply Hfree. right. left.
Defined.

Lemma annotation_membership_witness :
  exists s,
    bb_vardeps (vardeps ["A"; "B"] (mkFunction "f" (Some {["D"]}) None)) = Some s /\
    "B" ∈ s /\ "D" ∈ s.
Proof.
  destruct (annotation_membership ["A"; "B"]
              (mkFunction "f" (Some {["D"]}) None) "B") as [(s & Hs & HB) _].
  destruct (annotation_membership ["A"; "B"]
              (mkFunction "f" (Some {["D"]}) None) "D") as [(s' & Hs' & HD) _].
  rewrite Hs in Hs'. inversion Hs'; subst s'.
  exists s. split; [exact Hs|]. split.
  - apply HB. right. right. left.
  - apply HD. left. simpl. apply elem_of_singleton. reflexivity.
Defined.
